(** * Optimx-Track: the URL-addressed object store ([optimxtra.storage.datastore])

    A shallow embedding of [DataStoreIO] and [DataStore] together with the
    parts of the Python runtime they call: [str] methods,
    [urllib.parse.urlparse], [uuid.UUID.hex], and the [os] / [shutil] calls
    on a POSIX filesystem.

    Conventions.
    - A Python [str] is a Rocq [string]; its characters are read as the code
      points U+0000..U+00FF.
    - [os.sep] is ["/"] (POSIX).
    - A Python exception is a value of [exn]; a call that may raise and may
      change the process state is a computation of the monad [Py]. *)

From Stdlib Require Import NArith Ascii String.
From Stdlib.Strings Require Import Byte.
From stdpp Require Import gmap strings list fin_maps.

Local Open Scope string_scope.

(** ** Exceptions *)

(** The [errno] values the modelled filesystem calls fail with, named after
    the [OSError] subclasses Python maps them to. *)
Inductive os_error :=
| FileNotFoundError      (* ENOENT *)
| NotADirectoryError     (* ENOTDIR *)
| IsADirectoryError      (* EISDIR *)
| FileExistsError        (* EEXIST *)
| ResourceBusyError.     (* EBUSY: plain OSError *)

Inductive exn :=
| InvalidInput (msg : string)     (* optimxtra.utils.exceptions.InvalidInput *)
| ValueError                      (* raised by urllib.parse *)
| TypeMismatch                    (* raised by validate_type *)
| CodecError (msg : string)       (* raised by the serialization codec *)
| OSError (e : os_error).

(** The result of a call: a returned value or a raised exception. *)
Inductive outcome (A : Type) :=
| Return (a : A)
| Raise (e : exn).
Arguments Return {A} a.
Arguments Raise {A} e.

(** The exceptions of the Python runtime that the store's own calls never
    raise, beside those of [exn]; and the result of a call that may raise
    one of them. *)
Inductive error :=
| Exn (e : exn)
| AttributeError (name : string)
| UnboundLocalError (name : string).

Inductive result (A : Type) :=
| Done (a : A)
| Failed (e : error).
Arguments Done {A} a.
Arguments Failed {A} e.

Definition of_outcome {A} (r : outcome A) : result A :=
  match r with
  | Return a => Done a
  | Raise e => Failed (Exn e)
  end.

(** ** Python [str] operations *)

Module Str.

(** [c in s] *)
Fixpoint contains (c : ascii) (s : string) : bool :=
  match s with
  | EmptyString => false
  | String a r => if Ascii.eqb a c then true else contains c r
  end.

(** [s.find(c)]; [None] stands for the result [-1]. *)
Fixpoint find (c : ascii) (s : string) : option nat :=
  match s with
  | EmptyString => None
  | String a r => if Ascii.eqb a c then Some 0 else option_map S (find c r)
  end.

(** [s[:n]] *)
Fixpoint take (n : nat) (s : string) : string :=
  match n, s with
  | S n', String a r => String a (take n' r)
  | _, _ => EmptyString
  end.

(** [s[n:]] *)
Fixpoint drop (n : nat) (s : string) : string :=
  match n, s with
  | S n', String _ r => drop n' r
  | _, _ => s
  end.

(** [s[i:j]] *)
Definition slice (i j : nat) (s : string) : string := take (j - i) (drop i s).

(** [s.find(c, start)] *)
Definition find_from (c : ascii) (s : string) (start : nat) : option nat :=
  option_map (Nat.add start) (find c (drop start s)).

(** [s.rfind(c)] *)
Fixpoint rfind (c : ascii) (s : string) : option nat :=
  match s with
  | EmptyString => None
  | String a r =>
      match rfind c r with
      | Some i => Some (S i)
      | None => if Ascii.eqb a c then Some 0 else None
      end
  end.

(** [s.startswith(p)] *)
Fixpoint startswith (p s : string) : bool :=
  match p, s with
  | EmptyString, _ => true
  | String a p', String b s' => Ascii.eqb a b && startswith p' s'
  | String _ _, EmptyString => false
  end.

(** [s.replace(c, "")] *)
Fixpoint remove (c : ascii) (s : string) : string :=
  match s with
  | EmptyString => EmptyString
  | String a r => if Ascii.eqb a c then remove c r else String a (remove c r)
  end.

(** [all(p(c) for c in s)] *)
Fixpoint all (p : ascii -> bool) (s : string) : bool :=
  match s with
  | EmptyString => true
  | String a r => p a && all p r
  end.

(** [s.split(c, 1)] when [c in s], and [(s, "")] otherwise: the text before
    the first [c] and the text after it. *)
Fixpoint partition (c : ascii) (s : string) : string * string :=
  match s with
  | EmptyString => (EmptyString, EmptyString)
  | String a r =>
      if Ascii.eqb a c then (EmptyString, r)
      else let '(h, t) := partition c r in (String a h, t)
  end.

(** [s.split(c)] *)
Fixpoint split (c : ascii) (s : string) : list string :=
  match s with
  | EmptyString => [EmptyString]
  | String a r =>
      if Ascii.eqb a c then EmptyString :: split c r
      else match split c r with
           | h :: t => String a h :: t
           | [] => [String a EmptyString]
           end
  end.

(** [c.isascii()] *)
Definition is_ascii (c : ascii) : bool := (nat_of_ascii c <? 128)%nat.
Definition is_ascii_upper (c : ascii) : bool :=
  (65 <=? nat_of_ascii c)%nat && (nat_of_ascii c <=? 90)%nat.
Definition is_ascii_lower (c : ascii) : bool :=
  (97 <=? nat_of_ascii c)%nat && (nat_of_ascii c <=? 122)%nat.
Definition is_ascii_digit (c : ascii) : bool :=
  (48 <=? nat_of_ascii c)%nat && (nat_of_ascii c <=? 57)%nat.
(** [c.isascii() and c.isalpha()] *)
Definition is_ascii_alpha (c : ascii) : bool :=
  is_ascii_upper c || is_ascii_lower c.

Definition lower_char (c : ascii) : ascii :=
  if is_ascii_upper c then ascii_of_nat (nat_of_ascii c + 32) else c.

(** [s.lower()], on the ASCII letters (the only letters it is applied to). *)
Fixpoint lower (s : string) : string :=
  match s with
  | EmptyString => EmptyString
  | String a r => String (lower_char a) (lower r)
  end.

(** [s.lstrip(chars)] for the characters selected by [p]. *)
Fixpoint lstrip (p : ascii -> bool) (s : string) : string :=
  match s with
  | EmptyString => EmptyString
  | String a r => if p a then lstrip p r else s
  end.

End Str.

(** ** [urllib.parse]

    [urlsplit] and [urlparse] as in CPython 3.12; the security releases of
    3.8 to 3.11 strip the same characters from a URL. *)

(** The two checks of a network location that [urlsplit] delegates:
    [_check_bracketed_netloc] (the host inside [[...]] is an IPv6 or
    IPvFuture address; Python releases before this check accept every
    bracketed host) and the NFKC comparison at the end of [_checknetloc]
    (Unicode normalisation of a netloc that is not ASCII). Both raise
    [ValueError]; neither looks at anything but the netloc, and they are an
    interface of the model. *)
Class NetlocCheck := {
  bracketed_netloc_ok : string -> bool;
  nfkc_netloc_ok : string -> bool
}.

Module Url.

Record ParseResult := mkParseResult {
  scheme : string;
  netloc : string;
  path : string;
  params : string;
  query : string;
  fragment : string
}.

(** [_WHATWG_C0_CONTROL_OR_SPACE]: the characters [\x00] to [\x20]. *)
Definition c0_control_or_space (c : ascii) : bool := (nat_of_ascii c <=? 32)%nat.

(** [_UNSAFE_URL_BYTES_TO_REMOVE = ['\t', '\r', '\n']] *)
Definition unsafe_url_bytes : list ascii := ["009"; "013"; "010"]%char.

Definition remove_unsafe (url : string) : string :=
  fold_left (fun u b => Str.remove b u) unsafe_url_bytes url.

(** [scheme_chars]: ASCII letters, digits and ["+-."]. *)
Definition scheme_char (c : ascii) : bool :=
  Str.is_ascii_alpha c || Str.is_ascii_digit c
  || Ascii.eqb c "+" || Ascii.eqb c "-" || Ascii.eqb c ".".

(** [_splitnetloc(url, start)] *)
Definition _splitnetloc (url : string) (start : nat) : string * string :=
  let delim :=
    fold_left
      (fun delim c =>
         match Str.find_from c url start with
         | Some wdelim => Nat.min delim wdelim
         | None => delim
         end)
      ["/"; "?"; "#"]%char (String.length url) in
  (Str.slice start delim url, Str.drop delim url).

(** The bracket checks of [urlsplit]: a netloc with only one of ["["] and
    ["]"] is an "Invalid IPv6 URL", one with both goes through
    [_check_bracketed_netloc]. *)
Definition brackets_ok `{NetlocCheck} (netloc : string) : bool :=
  let opening := Str.contains "[" netloc in
  let closing := Str.contains "]" netloc in
  if opening && closing then bracketed_netloc_ok netloc
  else negb (opening || closing).

(** [_checknetloc(netloc)]: returns at once when [not netloc or
    netloc.isascii()]. *)
Definition _checknetloc `{NetlocCheck} (netloc : string) : bool :=
  String.eqb netloc "" || Str.all Str.is_ascii netloc || nfkc_netloc_ok netloc.

(** [urlsplit(url)] with the default [scheme=''] and
    [allow_fragments=True]; its result without the parameters field. *)
Definition urlsplit `{NetlocCheck} (url : string) : outcome ParseResult :=
  let url := Str.lstrip c0_control_or_space url in
  let url := remove_unsafe url in
  let '(scheme, url) :=
    match Str.find ":" url, url with
    | Some (S _ as i), String c0 _ =>
        if Str.is_ascii_alpha c0 && Str.all scheme_char (Str.take i url)
        then (Str.lower (Str.take i url), Str.drop (i + 1) url)
        else (EmptyString, url)
    | _, _ => (EmptyString, url)
    end in
  let '(netloc, url) :=
    if String.eqb (Str.take 2 url) "//" then _splitnetloc url 2
    else (EmptyString, url) in
  if negb (brackets_ok netloc && _checknetloc netloc)
  then Raise ValueError
  else
    let '(url, fragment) :=
      if Str.contains "#" url then Str.partition "#" url
      else (url, EmptyString) in
    let '(url, query) :=
      if Str.contains "?" url then Str.partition "?" url
      else (url, EmptyString) in
    Return (mkParseResult scheme netloc url "" query fragment).

(** [uses_params] *)
Definition uses_params : list string :=
  [""; "ftp"; "hdl"; "prospero"; "http"; "imap"; "https"; "shttp"; "rtsp";
   "rtspu"; "sip"; "sips"; "mms"; "sftp"; "tel"].

(** [_splitparams(url)] *)
Definition _splitparams (url : string) : string * string :=
  let cut i := (Str.take i url, Str.drop (i + 1) url) in
  if Str.contains "/" url then
    match Str.find_from ";" url (default 0 (Str.rfind "/" url)) with
    | Some i => cut i
    | None => (url, EmptyString)
    end
  else
    match Str.find ";" url with
    | Some i => cut i
    | None => (Str.take (String.length url - 1) url, url)
    end.

(** [urlparse(url)] *)
Definition urlparse `{NetlocCheck} (url : string) : outcome ParseResult :=
  match urlsplit url with
  | Raise e => Raise e
  | Return r =>
      if bool_decide (scheme r ∈ uses_params) && Str.contains ";" (path r)
      then let '(url, params) := _splitparams (path r) in
           Return (mkParseResult (scheme r) (netloc r) url params
                                 (query r) (fragment r))
      else Return r
  end.

End Url.

(** ** [uuid.UUID.hex] *)

Module UUID.

(** A [uuid.UUID] is its 128-bit integer [int] ([0 <= int < 1 << 128]). *)
Definition in_range (u : N) : Prop := (u < 2 ^ 128)%N.

Definition hex_digit (d : N) : ascii :=
  match String.get (N.to_nat d) "0123456789abcdef" with
  | Some c => c
  | None => "0"%char
  end.

(** The [k] least significant hexadecimal digits of [n], most significant
    first. *)
Fixpoint hex_digits (k : nat) (n : N) : string :=
  match k with
  | O => EmptyString
  | S k' => hex_digits k' (n / 16) +:+ String (hex_digit (n mod 16)) EmptyString
  end.

(** [UUID.hex]: ['%032x' % self.int] *)
Definition hex (u : N) : string := hex_digits 32 u.

(** [int(c, 16)] for a lower-case hexadecimal digit. *)
Definition hex_value (c : ascii) : N :=
  let n := N.of_nat (nat_of_ascii c) in
  if Str.is_ascii_digit c then n - 48 else n - 87.

Definition is_hex_char (c : ascii) : bool :=
  Str.is_ascii_digit c
  || ((97 <=? nat_of_ascii c)%nat && (nat_of_ascii c <=? 102)%nat).

End UUID.

(** ** The filesystem *)

(** A POSIX directory tree without symbolic links, in which the process may
    read and write everything: it maps the absolute location of every
    existing file and directory (the list of names from the root, [[]] being
    the root directory) to what is there. *)
Module Fs.

Inductive entry :=
| File (data : list byte)
| Dir.

Abbreviation t := (gmap (list string) entry).

(** The directory holding [p]; the root is its own parent. *)
Definition parent (p : list string) : list string := take (length p - 1) p.

(** One component of a pathname, followed from the directory [cur]. *)
Definition step (cur : list string) (c : string) : list string :=
  if String.eqb c "" || String.eqb c "." then cur
  else if String.eqb c ".." then parent cur
  else cur ++ [c].

(** Pathname resolution: every component is looked up in a directory that
    exists ([ENOENT] otherwise) and is a directory ([ENOTDIR] otherwise).
    The location the last component leads to need not exist. *)
Fixpoint walk (fs : t) (cur : list string) (comps : list string)
  : outcome (list string) :=
  match comps with
  | [] => Return cur
  | c :: rest =>
      match fs !! cur with
      | Some Dir => walk fs (step cur c) rest
      | Some (File _) => Raise (OSError NotADirectoryError)
      | None => Raise (OSError FileNotFoundError)
      end
  end.

(** Where a walk starts: the root for an absolute pathname, the current
    directory otherwise. *)
Definition origin (cwd : list string) (pathname : string) : list string :=
  if Str.startswith "/" pathname then [] else cwd.

Definition resolve (fs : t) (cwd : list string) (pathname : string)
  : outcome (list string) :=
  if String.eqb pathname "" then Raise (OSError FileNotFoundError)
  else walk fs (origin cwd pathname) (Str.split "/" pathname).

(** [with open(pathname, "rb") as f: return f.read()] *)
Definition read_file (fs : t) (cwd : list string) (pathname : string)
  : outcome (list byte) :=
  match resolve fs cwd pathname with
  | Raise e => Raise e
  | Return p =>
      match fs !! p with
      | Some (File data) => Return data
      | Some Dir => Raise (OSError IsADirectoryError)
      | None => Raise (OSError FileNotFoundError)
      end
  end.

(** [with open(pathname, "wb") as f: f.write(data)]: the file is created or
    truncated, then holds [data]. *)
Definition write_file (fs : t) (cwd : list string) (pathname : string)
    (data : list byte) : outcome unit * t :=
  match resolve fs cwd pathname with
  | Raise e => (Raise e, fs)
  | Return p =>
      match fs !! p with
      | Some Dir => (Raise (OSError IsADirectoryError), fs)
      | _ => (Return tt, <[p := File data]> fs)
      end
  end.

(** The walk of [os.makedirs]: as [walk], creating the directories that
    are missing on the way. *)
Fixpoint mkdirs (fs : t) (cur : list string) (comps : list string)
  : outcome (list string) * t :=
  match comps with
  | [] => (Return cur, fs)
  | c :: rest =>
      match fs !! cur with
      | Some Dir =>
          let next := step cur c in
          match fs !! next with
          | None => mkdirs (<[next := Dir]> fs) next rest
          | Some _ => mkdirs fs next rest
          end
      | Some (File _) => (Raise (OSError NotADirectoryError), fs)
      | None => (Raise (OSError FileNotFoundError), fs)
      end
  end.

(** [os.makedirs(pathname, exist_ok=True)]: an existing directory is
    accepted, an existing file is not. *)
Definition makedirs (fs : t) (cwd : list string) (pathname : string)
  : outcome unit * t :=
  if String.eqb pathname "" then (Raise (OSError FileNotFoundError), fs)
  else
    match mkdirs fs (origin cwd pathname) (Str.split "/" pathname) with
    | (Raise e, fs') => (Raise e, fs')
    | (Return p, fs') =>
        match fs' !! p with
        | Some Dir => (Return tt, fs')
        | _ => (Raise (OSError FileExistsError), fs')
        end
    end.

(** What is left when the directory [p] is removed with all it holds; the
    root directory itself cannot be removed. *)
Definition remove_subtree (p : list string) (fs : t) : t :=
  filter (λ kv, ¬ (p `prefix_of` kv.1) ∨ kv.1 = []) fs.

(** [shutil.rmtree(pathname, ignore_errors=ignore_errors)]. With
    [ignore_errors] every [OSError] met on the way is dropped and the call
    returns normally; without it the first one is raised. *)
Definition rmtree (fs : t) (cwd : list string) (pathname : string)
    (ignore_errors : bool) : outcome unit * t :=
  let onerror (e : exn) : outcome unit :=
    if ignore_errors then Return tt else Raise e in
  match resolve fs cwd pathname with
  | Raise e => (onerror e, fs)
  | Return p =>
      match fs !! p with
      | None => (onerror (OSError FileNotFoundError), fs)
      | Some (File _) => (onerror (OSError NotADirectoryError), fs)
      | Some Dir =>
          (if bool_decide (p = []) then onerror (OSError ResourceBusyError)
           else Return tt,
           remove_subtree p fs)
      end
  end.

(** [os.stat(pathname)]: what the pathname names. *)
Definition stat (fs : t) (cwd : list string) (pathname : string)
  : outcome entry :=
  match resolve fs cwd pathname with
  | Raise e => Raise e
  | Return p =>
      match fs !! p with
      | Some e => Return e
      | None => Raise (OSError FileNotFoundError)
      end
  end.

(** [os.path.isdir(pathname)] *)
Definition isdir (fs : t) (cwd : list string) (pathname : string) : bool :=
  match stat fs cwd pathname with
  | Return Dir => true
  | _ => false
  end.

(** A name of a directory entry: not empty, not ["."] or [".."], and
    without a separator. *)
Definition simple_name (s : string) : bool :=
  negb (String.eqb s "") && negb (String.eqb s ".")
  && negb (String.eqb s "..") && negb (Str.contains "/" s).

(** A pathname that never steps up to a parent directory. *)
Definition no_dotdot (pathname : string) : bool :=
  forallb (fun c => negb (String.eqb c "..")) (Str.split "/" pathname).

(** The components of a pathname that name an entry (neither empty nor
    ["."]). *)
Definition names (comps : list string) : list string :=
  List.filter (fun c => negb (String.eqb c "" || String.eqb c ".")) comps.

(** [os.path.isfile(pathname)] *)
Definition isfile (fs : t) (cwd : list string) (pathname : string) : bool :=
  match stat fs cwd pathname with
  | Return (File _) => true
  | _ => false
  end.

(** The absolute pathname of a location: ["/"] for the root, and otherwise
    every name behind a ["/"]. *)
Fixpoint joined (p : list string) : string :=
  match p with
  | [] => EmptyString
  | name :: rest => "/" +:+ name +:+ joined rest
  end.

Definition pathname_of (p : list string) : string :=
  match p with
  | [] => "/"
  | _ => joined p
  end.

(** A directory that is there with all the directories above it. *)
Definition dir_chain (fs : t) (p : list string) : Prop :=
  forall q, q `prefix_of` p -> fs !! q = Some Dir.

End Fs.

(** ** Stored values and the serialization codec *)

(** The values the system stores: primitives, sequences and mappings. *)
#[local] Unset Elimination Schemes.
Inductive Value :=
| VNone
| VBool (b : bool)
| VInt (n : Z)
| VStr (s : string)
| VBytes (b : list byte)
| VList (items : list Value)
| VDict (items : list (string * Value)).
#[local] Set Elimination Schemes.

(** The shape of a value: the Python type [validate_type] compares against. *)
Inductive Shape :=
| NoneType | bool_ | int_ | str_ | bytes_ | list_ | dict_.

#[global] Instance Shape_eq_dec : EqDecision Shape.
Proof. solve_decision. Defined.

Definition shape (v : Value) : Shape :=
  match v with
  | VNone => NoneType
  | VBool _ => bool_
  | VInt _ => int_
  | VStr _ => str_
  | VBytes _ => bytes_
  | VList _ => list_
  | VDict _ => dict_
  end.

(** [optimxtra.storage.serialization]: the pluggable codec, an interface of
    the store. *)
Class Codec := {
  serialize : Value -> outcome (list byte);
  deserialize : list byte -> outcome Value
}.

(** Modelled from the spec: [optimxtra.utils.exceptions.validate_type] is
    not among the sources; by the spec the typed read "fails with a
    TypeMismatch condition if the decoded value's shape does not match
    [expected_shape]". *)
Definition validate_type (obj : Value) (expected_type : Shape) : outcome unit :=
  if bool_decide (shape obj = expected_type) then Return tt
  else Raise TypeMismatch.

(** ** The process state and the monad of calls *)

(** Modelled from the spec: [optimxtra.opts.options] is not among the
    sources; by the spec it is process-wide configuration holding the
    store's root URL (key ["datastore.url"]) and the default relative path
    prefix (key ["datastore.relative_path_prefix"]). *)
Record Options := mkOptions {
  datastore_url : string;
  datastore_relative_path_prefix : string
}.

Record World := mkWorld {
  fs : gmap (list string) Fs.entry;   (* the directory tree *)
  cwd : list string;                  (* os.getcwd() *)
  opts : Options;                     (* the options() singleton *)
  uuid_seq : nat -> N;                (* the UUIDs next_uuid() hands out, in order *)
  uuid_calls : nat                    (* how many it has handed out *)
}.

Definition Py (A : Type) : Type := World -> outcome A * World.

Definition ret {A} (a : A) : Py A := fun w => (Return a, w).
Definition raise {A} (e : exn) : Py A := fun w => (Raise e, w).
Definition bind {A B} (m : Py A) (k : A -> Py B) : Py B :=
  fun w =>
    match m w with
    | (Return a, w') => k a w'
    | (Raise e, w') => (Raise e, w')
    end.
(** A call that raises or returns without touching the state. *)
Definition lift {A} (r : outcome A) : Py A := fun w => (r, w).

Notation "x <- m ;; k" := (bind m (fun x => k))
  (at level 100, m at next level, right associativity,
   format "'[v' x  <-  m  ;;  '/' k ']'").
Notation "m ;;; k" := (bind m (fun _ => k))
  (at level 100, right associativity).

(** [options()] *)
Definition options : Py Options := fun w => (Return (opts w), w).

(** Modelled from the spec: [options().default_if_null(value, key)] "returns
    [value] unchanged if non-null, otherwise looks up [key]". *)
Definition default_if_null (value : option string) (setting : string) : string :=
  match value with
  | Some v => v
  | None => setting
  end.

(** Modelled from the spec: [optimxtra.storage.database.next_uuid] is not
    among the sources; it is the identifier generator, here the next
    element of the sequence of UUIDs the process is handed. *)
Definition next_uuid : Py N :=
  fun w =>
    (Return (uuid_seq w (uuid_calls w)),
     mkWorld (fs w) (cwd w) (opts w) (uuid_seq w) (S (uuid_calls w))).

Definition with_fs (w : World) (fs' : gmap (list string) Fs.entry) : World :=
  mkWorld fs' (cwd w) (opts w) (uuid_seq w) (uuid_calls w).

(** The filesystem calls, on the process state. *)
Definition os_makedirs_exist_ok (pathname : string) : Py unit :=
  fun w => let '(r, fs') := Fs.makedirs (fs w) (cwd w) pathname in (r, with_fs w fs').
Definition open_wb_write (pathname : string) (data : list byte) : Py unit :=
  fun w => let '(r, fs') := Fs.write_file (fs w) (cwd w) pathname data in (r, with_fs w fs').
Definition open_rb_read (pathname : string) : Py (list byte) :=
  fun w => (Fs.read_file (fs w) (cwd w) pathname, w).
Definition rmtree (pathname : string) (ignore_errors : bool) : Py unit :=
  fun w => let '(r, fs') := Fs.rmtree (fs w) (cwd w) pathname ignore_errors in (r, with_fs w fs').

(** [os.sep] *)
Definition os_sep : string := "/".

Definition with_cwd (w : World) (cwd' : list string) : World :=
  mkWorld (fs w) cwd' (opts w) (uuid_seq w) (uuid_calls w).

(** [os.getcwd()]: the pathname of the current directory, which has to be
    there still. *)
Definition os_getcwd : Py string :=
  fun w =>
    match fs w !! cwd w with
    | Some Fs.Dir => (Return (Fs.pathname_of (cwd w)), w)
    | _ => (Raise (OSError FileNotFoundError), w)
    end.

(** [os.chdir(path)] *)
Definition os_chdir (path : string) : Py unit :=
  fun w =>
    match Fs.resolve (fs w) (cwd w) path with
    | Raise e => (Raise e, w)
    | Return p =>
        match fs w !! p with
        | Some Fs.Dir => (Return tt, with_cwd w p)
        | Some (Fs.File _) => (Raise (OSError NotADirectoryError), w)
        | None => (Raise (OSError FileNotFoundError), w)
        end
    end.

(** ** [class DataStoreIO] *)

Module DataStoreIO.

(** An instance: [__slots__ = ("url",)]. *)
Record t := mk { url : string }.

(** [get_filepath(cls, url_unparsed)] *)
Definition get_filepath `{NetlocCheck} (url_unparsed : string) : outcome string :=
  match Url.urlparse url_unparsed with
  | Raise e => Raise e
  | Return url =>
      if String.eqb (Url.scheme url) "file" then
        if negb (Str.startswith "file:///" url_unparsed) then
          Raise (InvalidInput
                   ("Invalid file path, it must start with file:/// but found "
                    +:+ url_unparsed))
        else Return (Str.drop 1 (Url.path url))
      else Raise (InvalidInput ("Unsupported URL scheme: " +:+ Url.scheme url))
  end.

(** [delete(cls, relative_path_prefix)] *)
Definition delete `{NetlocCheck} (relative_path_prefix : string) : Py unit :=
  o <- options ;;
  root <- lift (get_filepath (datastore_url o)) ;;
  let pathdir := root +:+ os_sep +:+ relative_path_prefix in
  rmtree pathdir true.

(** [get_pathname_from_url(cls, url)] *)
Definition get_pathname_from_url `{NetlocCheck} (url : string) : Py string :=
  o <- options ;;
  pathdir <- lift (get_filepath (datastore_url o)) ;;
  rel <- lift (get_filepath url) ;;
  let pathname := pathdir +:+ os_sep +:+ rel in
  ret pathname.

(** [get_next_pathname_url(cls, relative_path_prefix=None)] *)
Definition get_next_pathname_url `{NetlocCheck}
    (relative_path_prefix : option string) : Py (string * string) :=
  o <- options ;;
  let relative_path_prefix :=
    default_if_null relative_path_prefix (datastore_relative_path_prefix o) in
  o <- options ;;
  root <- lift (get_filepath (datastore_url o)) ;;
  let pathdir := root +:+ os_sep +:+ relative_path_prefix in
  os_makedirs_exist_ok pathdir ;;;
  u <- next_uuid ;;
  let basename := UUID.hex u in
  let pathname := pathdir +:+ os_sep +:+ basename in
  let url := "file:///" +:+ relative_path_prefix +:+ os_sep +:+ basename in
  ret (pathname, url).

(** [write(cls, data, relative_path_prefix=None)] *)
Definition write `{NetlocCheck} (data : list byte)
    (relative_path_prefix : option string) : Py t :=
  pu <- get_next_pathname_url relative_path_prefix ;;
  let '(pathname, url) := pu in
  open_wb_write pathname data ;;;
  ret (mk url).

(** [serialize_write(cls, obj, relative_path_prefix=None)] *)
Definition serialize_write `{NetlocCheck} `{Codec} (obj : Value)
    (relative_path_prefix : option string) : Py t :=
  data <- lift (serialize obj) ;;
  write data relative_path_prefix.

(** [read(self)] *)
Definition read `{NetlocCheck} (self : t) : Py (list byte) :=
  pathname <- get_pathname_from_url (url self) ;;
  open_rb_read pathname.

(** [read_deserialize(self, expected_type=None)] *)
Definition read_deserialize `{NetlocCheck} `{Codec} (self : t)
    (expected_type : option Shape) : Py Value :=
  data <- read (mk (url self)) ;;
  obj <- lift (deserialize data) ;;
  match expected_type with
  | Some T => lift (validate_type obj T)
  | None => ret tt
  end ;;;
  ret obj.

(** [__state__ = ("url",)] *)
Definition __state__ : list string := ["url"].

(** [getattr(self, key)]: the instance has the one slot [url]. *)
Definition getattr (self : t) (key : string) : result string :=
  if String.eqb key "url" then Done (url self) else Failed (AttributeError key).

(** [self.__setattr__(k, v)] *)
Definition __setattr__ (self : t) (k v : string) : result unit * t :=
  if String.eqb k "url" then (Done tt, mk v)
  else (Failed (AttributeError k), self).

(** [__getstate__(self)]: the dictionary
    [{key: getattr(self, key) for key in self.__state__}], as its items. *)
Definition __getstate__ (self : t) : result (list (string * string)) :=
  fold_right
    (fun key acc =>
       match getattr self key, acc with
       | Done v, Done items => Done ((key, v) :: items)
       | Failed e, _ => Failed e
       | _, Failed e => Failed e
       end)
    (Done []) __state__.

(** [__setstate__(self, state)]: the items of [state] are set one after the
    other on the instance; what was set before an exception stays set. *)
Fixpoint __setstate__ (self : t) (state : list (string * string))
  : result unit * t :=
  match state with
  | [] => (Done tt, self)
  | (k, v) :: rest =>
      match __setattr__ self k v with
      | (Done _, self') => __setstate__ self' rest
      | (Failed e, self') => (Failed e, self')
      end
  end.

End DataStoreIO.

(** ** [class DataStore(Bunch)] *)

Module DataStore.

(** A [Bunch]: a mapping from names to values. *)
Record t := mk { items : list (string * Value) }.

(** Modelled from the spec: [Bunch] is not among the sources; its
    constructor wraps a mapping in the container. *)
Definition init (obj : Value) : outcome t :=
  match obj with
  | VDict kvs => Return (mk kvs)
  | _ => Raise TypeMismatch
  end.

(** [dict(self)] *)
Definition to_dict (self : t) : Value := VDict (items self).

(** [to_url(self)] *)
Definition to_url `{NetlocCheck} `{Codec} (self : t) : Py string :=
  h <- DataStoreIO.serialize_write (to_dict self) None ;;
  ret (DataStoreIO.url h).

(** [from_url(url)] *)
Definition from_url `{NetlocCheck} `{Codec} (url : string) : Py t :=
  obj <- DataStoreIO.read_deserialize (DataStoreIO.mk url) (Some dict_) ;;
  lift (init obj).

End DataStore.

(** ** [optimxtra/steps/init_sequences.py] *)

Module InitSequences.

Section Run.

(** [Run] and [Sequence] are not among the sources. Of a run the step only
    touches the dictionary [run.fields]; of [Sequence] it only calls the
    constructor. They are parameters: the type of the fields' values and
    the value [Sequence()] constructs. *)
Context {Field : Type} (Sequence : Field).

(** The argument [names]: [None], a [str] or a list of [str]. *)
Inductive names_arg :=
| NoNames
| OneName (name : string)
| Names (names : list string).

(** [step_init_sequences(run, names=None)], on [run.fields]. *)
Definition step_init_sequences (fields : gmap string Field) (names : names_arg)
  : gmap string Field :=
  let names :=
    match names with
    | NoNames => []
    | OneName name => [name]
    | Names names => names
    end in
  fold_left (fun fields name => <[name := Sequence]> fields) names fields.

(** [init_sequences(names=None)]: [partial(step_init_sequences, names=names)] *)
Definition init_sequences (names : names_arg)
  : gmap string Field -> gmap string Field :=
  fun fields => step_init_sequences fields names.

End Run.

End InitSequences.

(** ** [optimxtra/steps/chdir.py] *)

Module Chdir.

(** [step_chdir(run, path=None)]; the run is not looked at. *)
Definition step_chdir {Run : Type} (run : Run) (path : option string) : Py unit :=
  match path with
  | Some path => if String.eqb path "" then ret tt else os_chdir path
  | None => ret tt
  end.

(** [chdir(path=None)]: [partial(step_chdir, path=path)], the path being
    the current directory when none is given. *)
Definition chdir {Run : Type} (path : option string) : Py (Run -> Py unit) :=
  path <- match path with
          | Some path => if String.eqb path "" then os_getcwd else ret path
          | None => os_getcwd
          end ;;
  ret (fun run => step_chdir run (Some path)).

End Chdir.

(** ** [optimxtra/utils/fs.py] *)

(** [get_reusable_executor().shutdown(wait=True)] of joblib, a call of the
    model's interface. *)
Class Joblib := shutdown_reusable_executor : Py unit.

(** [tempfile.mkdtemp()]: makes a new directory and returns its pathname. *)
Class Tempfile := mkdtemp : Py string.

(** [str(Path(src_dir).rglob(pattern))]: how the runtime prints the object
    [rglob] returns, unless [rglob] raises; and [fnmatch.fnmatch]. *)
Class Pathlib := rglob_str : string -> string -> outcome string.
Class Fnmatch := fnmatch : string -> string -> bool.

Module FsUtils.

(** [with chdir_ctx(dirname) as d: body(d)]. The generator runs up to its
    [yield] on entry and its [finally] on exit, also when the body or the
    entry raises; what the [finally] raises replaces what was raised. *)
Definition chdir_ctx `{Joblib} {A} (dirname : string) (body : string -> Py A)
  : World -> result A * World :=
  fun w =>
    match os_getcwd w with
    | (Raise _, w1) => (Failed (UnboundLocalError "old_dirname"), w1)
    | (Return old_dirname, w1) =>
        let '(r, w2) :=
          (os_chdir dirname ;;; shutdown_reusable_executor ;;; body dirname) w1 in
        match os_chdir old_dirname w2 with
        | (Return _, w3) => (of_outcome r, w3)
        | (Raise e, w3) => (Failed (Exn e), w3)
        end
    end.

(** [with tmpdir_ctx() as d: body(d)] *)
Definition tmpdir_ctx `{Tempfile} {A} (body : string -> Py A)
  : World -> result A * World :=
  fun w =>
    match os_getcwd w with
    | (Raise _, w1) => (Failed (UnboundLocalError "old_dirname"), w1)
    | (Return old_dirname, w1) =>
        match mkdtemp w1 with
        | (Raise _, w2) =>
            match os_chdir old_dirname w2 with
            | (Return _, w3) => (Failed (UnboundLocalError "tmp_dirname"), w3)
            | (Raise e, w3) => (Failed (Exn e), w3)
            end
        | (Return tmp_dirname, w2) =>
            let '(r, w3) := (os_chdir tmp_dirname ;;; body tmp_dirname) w2 in
            match os_chdir old_dirname w3 with
            | (Raise e, w4) => (Failed (Exn e), w4)
            | (Return _, w4) =>
                match rmtree tmp_dirname false w4 with
                | (Return _, w5) => (of_outcome r, w5)
                | (Raise e, w5) => (Failed (Exn e), w5)
                end
            end
        end
    end.

(** [list(s)]: the characters of a string, each a string. *)
Fixpoint chars (s : string) : list string :=
  match s with
  | EmptyString => []
  | String c rest => String c EmptyString :: chars rest
  end.

(** The patterns given as one [str] or as a list. *)
Definition patterns (p : string + list string) : list string :=
  match p with
  | inl pattern => [pattern]
  | inr patterns => patterns
  end.

(** The loop [for pattern in include: candidates +=
    list(str(Path(src_dir).rglob(pattern)))]. *)
Fixpoint candidates `{Pathlib} (src_dir : string) (include : list string)
  : outcome (list string) :=
  match include with
  | [] => Return []
  | pattern :: rest =>
      match rglob_str src_dir pattern with
      | Raise e => Raise e
      | Return text =>
          match candidates src_dir rest with
          | Raise e => Raise e
          | Return more => Return (chars text ++ more)%list
          end
      end
  end.

(** [globs(src_dir, include="**/*", exclude=None, recursive=True)]. The
    result is a list in the order of a [set], here the set. *)
Definition globs `{Pathlib} `{Fnmatch} (src_dir : string)
    (include : string + list string) (exclude : option (string + list string))
  : Py (gset string) :=
  fun w =>
    if negb (Fs.isdir (fs w) (cwd w) src_dir) then
      (Raise (InvalidInput ("Source directory '" +:+ src_dir +:+ "' does not exist")),
       w)
    else
      let include := patterns include in
      let exclude :=
        match exclude with
        | Some p => patterns p
        | None => []
        end in
      match candidates src_dir include with
      | Raise e => (Raise e, w)
      | Return found =>
          let candidates : gset string := list_to_set found in
          let drop (name : string) : bool :=
            if Fs.isfile (fs w) (cwd w) (src_dir +:+ os_sep +:+ name)
            then existsb (fun pattern => fnmatch name pattern) exclude
            else true in
          let dropped : gset string :=
            filter (fun name => drop name = true) candidates in
          (Return (candidates ∖ dropped), w)
      end.

End FsUtils.

(** ** Vocabulary of the statements *)

(** A string [urlparse] carries unchanged from a URL into its path: it has
    no ["?"] and no ["#"], which end the path, and no tab, carriage return
    or line feed, which [urlsplit] removes. *)
Definition url_safe (s : string) : bool :=
  negb (Str.contains "?" s) && negb (Str.contains "#" s)
  && forallb (fun b => negb (Str.contains b s)) Url.unsafe_url_bytes.

(** The path [get_filepath] returns for ["file:///" + rest]. *)
Definition cut (c : ascii) (s : string) : string :=
  if Str.contains c s then fst (Str.partition c s) else s.
Definition file_path (rest : string) : string :=
  cut "?" (cut "#" (Url.remove_unsafe rest)).

(** [Root/prefix/identifier] and [file:///prefix/identifier] *)
Definition object_pathname (root prefix token : string) : string :=
  (root +:+ os_sep +:+ prefix) +:+ os_sep +:+ token.
Definition object_url (prefix token : string) : string :=
  "file:///" +:+ prefix +:+ os_sep +:+ token.

(** The UUID the next call of [next_uuid] returns. *)
Definition upcoming_uuid (w : World) : N := uuid_seq w (uuid_calls w).

(** ** A concrete setting

    The scenario of the specification: root [file:///tmp/store], default
    prefix ["runs"], an empty directory tree, a Python whose [urlsplit]
    accepts every bracketed host, and a small codec. The statements below
    are exercised on it. *)

Definition python_netloc : NetlocCheck :=
  {| bracketed_netloc_ok := fun _ => true; nfkc_netloc_ok := fun _ => true |}.

(** A codec for byte strings, truth values, sequences of truth values and
    the empty mapping: one tag byte, then the payload. *)
Definition byte_of_bool (b : bool) : byte := if b then x01 else x00.
Definition bool_of_byte (b : byte) : bool := negb (Byte.eqb b x00).

Fixpoint bools_of (items : list Value) : option (list bool) :=
  match items with
  | [] => Some []
  | VBool b :: rest => option_map (cons b) (bools_of rest)
  | _ => None
  end.

Definition demo_serialize (v : Value) : outcome (list byte) :=
  match v with
  | VNone => Return [x00]
  | VBool b => Return [x01; byte_of_bool b]
  | VBytes b => Return (x02 :: b)
  | VList items =>
      match bools_of items with
      | Some bs => Return (x03 :: map byte_of_bool bs)
      | None => Raise (CodecError "value not representable")
      end
  | VDict [] => Return [x04]
  | _ => Raise (CodecError "value not representable")
  end.

Definition demo_deserialize (data : list byte) : outcome Value :=
  match data with
  | [x00] => Return VNone
  | [x01; b] => Return (VBool (bool_of_byte b))
  | x02 :: b => Return (VBytes b)
  | x03 :: bs => Return (VList (map (fun b => VBool (bool_of_byte b)) bs))
  | [x04] => Return (VDict [])
  | _ => Raise (CodecError "malformed payload")
  end.

Definition demo_codec : Codec :=
  {| serialize := demo_serialize; deserialize := demo_deserialize |}.

(** The process starts in the root directory of an empty tree; the
    generator counts up from 1000. *)
Definition demo_world : World :=
  mkWorld (<[ [] := Fs.Dir ]> ∅) [] (mkOptions "file:///tmp/store" "runs")
          (fun n => (1000 + N.of_nat n)%N) 0.

Definition demo_payload : list byte := [x02; x2a; x07].
Definition demo_token : string := "000000000000000000000000000003e8".
Definition demo_token' : string := "000000000000000000000000000003e9".
Definition demo_handle : DataStoreIO.t :=
  DataStoreIO.mk ("file:///runs/" +:+ demo_token).
Definition demo_handle' : DataStoreIO.t :=
  DataStoreIO.mk ("file:///other/" +:+ demo_token').

(** After [write(demo_payload)] under the default prefix ... *)
Definition demo_world1 : World :=
  snd (@DataStoreIO.write python_netloc demo_payload None demo_world).
(** ... and after a second [write(demo_payload, "other")]. *)
Definition demo_world2 : World :=
  snd (@DataStoreIO.write python_netloc demo_payload (Some "other") demo_world1).

(** A sequence, stored. *)
Definition demo_sequence : Value := VList [VBool true; VBool false].
Definition demo_world_seq : World :=
  snd (@DataStoreIO.serialize_write python_netloc demo_codec demo_sequence None
         demo_world).

(** A tree in which [tmp/store/f] is a regular file. *)
Definition demo_world_file : World :=
  mkWorld (<[ ["tmp"; "store"; "f"] := Fs.File demo_payload ]>
             (<[ ["tmp"; "store"] := Fs.Dir ]>
                (<[ ["tmp"] := Fs.Dir ]> (<[ [] := Fs.Dir ]> ∅))))
          [] (mkOptions "file:///tmp/store" "runs")
          (fun n => (1000 + N.of_nat n)%N) 0.

(** A prefix with a tab in it, and one with a question mark. *)
Definition tabbed_prefix : string := String "a" (String "009" "b").
Definition queried_prefix : string := "a?b".

(** A misconfigured store, whose root URL is not a [file] URL. *)
Definition demo_world_http : World :=
  mkWorld (<[ [] := Fs.Dir ]> ∅) [] (mkOptions "http://x/store" "runs")
          (fun n => (1000 + N.of_nat n)%N) 0.

(** The process inside [/tmp] of the tree with the regular file. *)
Definition demo_world_in_tmp : World := with_cwd demo_world_file ["tmp"].

(** No workers to shut down; a [mkdtemp] that makes [/tmp/tmpdir0]; a
    runtime that prints a generator the usual way; patterns that match
    themselves only. *)
Definition demo_joblib : Joblib := ret tt.
Definition demo_tempfile : Tempfile :=
  fun w => (Return "/tmp/tmpdir0",
            with_fs w (<[ ["tmp"; "tmpdir0"] := Fs.Dir ]> (fs w))).
Definition demo_pathlib : Pathlib :=
  fun _ _ => Return "<generator object Path.rglob at 0x7f3a5c>".
Definition demo_fnmatch : Fnmatch := fun name pattern => String.eqb name pattern.

(** * Properties *)

(** ** Strings *)

#[local] Arguments String.append !_ _ / : simpl nomatch.

Section StrFacts.

Implicit Types (c a : ascii) (s p x y : string).

Lemma append_assoc x y s : (x +:+ y) +:+ s = x +:+ (y +:+ s).
Proof. induction x as [|a x IH]; simpl; [reflexivity | now rewrite IH]. Qed.

Lemma append_inv_head x s p : x +:+ s = x +:+ p -> s = p.
Proof. induction x as [|a x IH]; simpl; intros E; [assumption|]. injection E; auto. Qed.

Lemma length_append x y : String.length (x +:+ y) = String.length x + String.length y.
Proof. induction x as [|a x IH]; simpl; [reflexivity | now rewrite IH]. Qed.

Lemma append_inj_length x y s p :
  String.length x = String.length y -> x +:+ s = y +:+ p -> x = y /\ s = p.
Proof.
  revert y; induction x as [|a x IH]; intros [|b y]; simpl; try discriminate.
  - auto.
  - intros L E. injection L as L. injection E as -> E.
    destruct (IH _ L E) as [-> ->]. auto.
Qed.

Lemma contains_append c x y :
  Str.contains c (x +:+ y) = Str.contains c x || Str.contains c y.
Proof.
  induction x as [|a x IH]; simpl; [reflexivity|].
  destruct (Ascii.eqb a c); [reflexivity | exact IH].
Qed.

Lemma remove_absent c s : Str.contains c s = false -> Str.remove c s = s.
Proof.
  induction s as [|a s IH]; simpl; [reflexivity|].
  destruct (Ascii.eqb a c); [discriminate|]. intros E. now rewrite IH.
Qed.

Lemma remove_append c x y : Str.remove c (x +:+ y) = Str.remove c x +:+ Str.remove c y.
Proof.
  induction x as [|a x IH]; simpl; [reflexivity|].
  destruct (Ascii.eqb a c); simpl; now rewrite IH.
Qed.

Lemma all_append (f : ascii -> bool) x y :
  Str.all f (x +:+ y) = Str.all f x && Str.all f y.
Proof.
  induction x as [|a x IH]; simpl; [reflexivity|].
  rewrite IH. now rewrite andb_assoc.
Qed.

(** A character that fails a test all characters of [s] pass is not in [s]. *)
Lemma all_not_contains (f : ascii -> bool) c s :
  Str.all f s = true -> f c = false -> Str.contains c s = false.
Proof.
  intros A F. induction s as [|a s IH]; simpl in *; [reflexivity|].
  apply andb_prop in A as [Fa A].
  destruct (Ascii.eqb_spec a c) as [->|_]; [congruence | auto].
Qed.

Lemma startswith_append p s : Str.startswith p (p +:+ s) = true.
Proof.
  induction p as [|a p IH]; simpl; [reflexivity|].
  now rewrite Ascii.eqb_refl, IH.
Qed.

Lemma startswith_inv p s :
  Str.startswith p s = true -> s = p +:+ Str.drop (String.length p) s.
Proof.
  revert s; induction p as [|a p IH]; intros s; simpl.
  - now destruct s.
  - destruct s as [|b s]; [discriminate|]. intros E.
    apply andb_prop in E as [Eab E]. apply Ascii.eqb_eq in Eab as ->.
    now rewrite <- (IH _ E).
Qed.

Lemma split_nonempty c s : Str.split c s <> [].
Proof.
  destruct s as [|a s]; simpl; [discriminate|].
  destruct (Ascii.eqb a c); [discriminate|].
  destruct (Str.split c s); discriminate.
Qed.

(** Splitting at a separator: [(x + c + y).split(c) = x.split(c) + y.split(c)]. *)
Lemma split_append c x y :
  Str.split c (x +:+ String c y) = (Str.split c x ++ Str.split c y)%list.
Proof.
  induction x as [|a x IH]; simpl.
  - now rewrite Ascii.eqb_refl.
  - destruct (Ascii.eqb a c); [now rewrite IH|].
    rewrite IH. destruct (Str.split c x) eqn:E; [|reflexivity].
    now apply split_nonempty in E.
Qed.

Lemma split_absent c s : Str.contains c s = false -> Str.split c s = [s].
Proof.
  induction s as [|a s IH]; simpl; [reflexivity|].
  destruct (Ascii.eqb a c); [discriminate|]. intros E. now rewrite IH.
Qed.

Lemma partition_absent c s : Str.contains c s = false -> Str.partition c s = (s, EmptyString).
Proof.
  induction s as [|a s IH]; simpl; [reflexivity|].
  destruct (Ascii.eqb a c); [discriminate|]. intros E. now rewrite IH.
Qed.

End StrFacts.

(** ** [urlparse] and [get_filepath] on [file:///] URLs *)

Section UrlFacts.

Context `{NetlocCheck}.

Lemma remove_unsafe_append x y :
  Url.remove_unsafe (x +:+ y) = Url.remove_unsafe x +:+ Url.remove_unsafe y.
Proof. unfold Url.remove_unsafe; simpl. now rewrite !remove_append. Qed.

Lemma url_safe_spec s :
  url_safe s = true ->
  Str.contains "?" s = false /\ Str.contains "#" s = false
  /\ Str.contains "009" s = false /\ Str.contains "013" s = false
  /\ Str.contains "010" s = false.
Proof.
  unfold url_safe; simpl.
  destruct (Str.contains "?" s), (Str.contains "#" s),
    (Str.contains "009" s), (Str.contains "013" s), (Str.contains "010" s);
    simpl; intros; try discriminate; auto.
Qed.

Lemma remove_unsafe_safe s : url_safe s = true -> Url.remove_unsafe s = s.
Proof.
  intros E. destruct (url_safe_spec _ E) as (_ & _ & Et & Er & En).
  unfold Url.remove_unsafe; simpl.
  rewrite (remove_absent _ _ Et), (remove_absent _ _ Er).
  exact (remove_absent _ _ En).
Qed.

Lemma cut_absent c s : Str.contains c s = false -> cut c s = s.
Proof. unfold cut. now intros ->. Qed.

Lemma file_path_safe s : url_safe s = true -> file_path s = s.
Proof.
  intros E. unfold file_path. rewrite (remove_unsafe_safe _ E).
  destruct (url_safe_spec _ E) as (Eq & Eh & _).
  rewrite (cut_absent _ _ Eh). exact (cut_absent _ _ Eq).
Qed.

Lemma url_safe_append x y : url_safe (x +:+ y) = url_safe x && url_safe y.
Proof.
  unfold url_safe; simpl. rewrite !contains_append, !negb_orb.
  repeat (destruct (negb _); simpl; try reflexivity).
Qed.

Lemma splitnetloc_empty rest :
  Url._splitnetloc ("///" +:+ rest) 2 = (EmptyString, "/" +:+ rest).
Proof.
  unfold Url._splitnetloc, Str.find_from, Str.slice; simpl.
  destruct (Str.find "?" rest), (Str.find "#" rest); reflexivity.
Qed.

(** What [urlsplit] makes of a URL that starts with [file:///]: scheme
    [file], no netloc, and the path up to the first ["#"] or ["?"] of what
    is left once tabs and line ends are removed. *)
Lemma urlsplit_file rest :
  exists r, Url.urlsplit ("file:///" +:+ rest) = Return r
            /\ Url.scheme r = "file" /\ Url.path r = "/" +:+ file_path rest.
Proof.
  unfold Url.urlsplit.
  change (Str.lstrip Url.c0_control_or_space ("file:///" +:+ rest))
    with ("file:///" +:+ rest).
  rewrite remove_unsafe_append.
  change (Url.remove_unsafe "file:///") with "file:///".
  set (u := Url.remove_unsafe rest).
  change (Str.find ":" ("file:///" +:+ u)) with (Some 4).
  cbn beta iota.
  change ("file:///" +:+ u) with (String "f" ("ile:///" +:+ u)).
  cbn beta iota.
  change (Str.take 4 (String "f" ("ile:///" +:+ u))) with "file".
  change (Str.drop (4 + 1) (String "f" ("ile:///" +:+ u))) with ("///" +:+ u).
  change (Str.is_ascii_alpha "f" && Str.all Url.scheme_char "file") with true.
  cbn beta iota.
  change (Str.take 2 ("///" +:+ u)) with "//".
  change ("//" =? "//")%string with true. cbn beta iota.
  rewrite splitnetloc_empty.
  change (Url.brackets_ok "" && Url._checknetloc "") with true.
  cbn beta iota.
  change (Str.contains "#" ("/" +:+ u)) with (Str.contains "#" u).
  unfold file_path, cut. fold u.
  destruct (Str.contains "#" u) eqn:Eh.
  - change (Str.partition "#" ("/" +:+ u))
      with (let '(h, t) := Str.partition "#" u in (String "/" h, t)).
    destruct (Str.partition "#" u) as [h t]; simpl fst.
    change (Str.contains "?" (String "/" h)) with (Str.contains "?" h).
    destruct (Str.contains "?" h) eqn:Eq.
    + change (Str.partition "?" (String "/" h))
        with (let '(h', t') := Str.partition "?" h in (String "/" h', t')).
      destruct (Str.partition "?" h) as [h' t']. eexists; repeat split.
    + eexists; repeat split.
  - change (Str.contains "?" ("/" +:+ u)) with (Str.contains "?" u).
    destruct (Str.contains "?" u) eqn:Eq.
    + change (Str.partition "?" ("/" +:+ u))
        with (let '(h', t') := Str.partition "?" u in (String "/" h', t')).
      destruct (Str.partition "?" u) as [h' t']. eexists; repeat split.
    + eexists; repeat split.
Qed.

Lemma urlparse_file rest :
  exists r, Url.urlparse ("file:///" +:+ rest) = Return r
            /\ Url.scheme r = "file" /\ Url.path r = "/" +:+ file_path rest.
Proof.
  destruct (urlsplit_file rest) as (r & E & Es & Ep).
  exists r. unfold Url.urlparse. rewrite E, Es. auto.
Qed.

(** [get_filepath] on a URL that starts with [file:///]. *)
Lemma get_filepath_file rest :
  DataStoreIO.get_filepath ("file:///" +:+ rest) = Return (file_path rest).
Proof.
  destruct (urlparse_file rest) as (r & E & Es & Ep).
  unfold DataStoreIO.get_filepath. rewrite E, Es, Ep.
  change (Str.startswith "file:///" ("file:///" +:+ rest)) with true.
  reflexivity.
Qed.

(** [get_filepath] returns only on such URLs. *)
Lemma get_filepath_Return u p :
  DataStoreIO.get_filepath u = Return p ->
  Str.startswith "file:///" u = true /\ p = file_path (Str.drop 8 u).
Proof.
  intros E.
  assert (S : Str.startswith "file:///" u = true).
  { unfold DataStoreIO.get_filepath in E.
    destruct (Url.urlparse u) as [r|]; [|discriminate].
    destruct (Url.scheme r =? "file")%string; [|discriminate].
    destruct (Str.startswith "file:///" u); [reflexivity | discriminate]. }
  split; [exact S|].
  rewrite (startswith_inv _ _ S) in E. rewrite get_filepath_file in E.
  now injection E.
Qed.

End UrlFacts.

(** ** [UUID.hex] *)

Section HexFacts.

Local Open Scope N_scope.

Lemma hex_digit_cases (P : N -> Prop) :
  P 0 -> P 1 -> P 2 -> P 3 -> P 4 -> P 5 -> P 6 -> P 7 -> P 8 -> P 9 ->
  P 10 -> P 11 -> P 12 -> P 13 -> P 14 -> P 15 ->
  forall d, d < 16 -> P d.
Proof.
  intros. destruct d as [|p]; [assumption|].
  do 4 (try destruct p as [p|p|]); try assumption; lia.
Qed.

Lemma hex_digit_is_hex d : d < 16 -> UUID.is_hex_char (UUID.hex_digit d) = true.
Proof. revert d. apply hex_digit_cases; reflexivity. Qed.

Lemma hex_value_digit d : d < 16 -> UUID.hex_value (UUID.hex_digit d) = d.
Proof. revert d. apply hex_digit_cases; reflexivity. Qed.

Lemma length_hex_digits k n : String.length (UUID.hex_digits k n) = k.
Proof.
  revert n; induction k as [|k IH]; intros n; simpl; [reflexivity|].
  rewrite length_append, IH. simpl. lia.
Qed.

Lemma hex_digits_all_hex k n : Str.all UUID.is_hex_char (UUID.hex_digits k n) = true.
Proof.
  revert n; induction k as [|k IH]; intros n; simpl; [reflexivity|].
  rewrite all_append, IH. simpl.
  rewrite hex_digit_is_hex; [reflexivity|]. now apply N.mod_lt.
Qed.

(** The digits determine the number up to [16 ^ k]. *)
Lemma hex_digits_inj k a b :
  UUID.hex_digits k a = UUID.hex_digits k b ->
  a mod 16 ^ N.of_nat k = b mod 16 ^ N.of_nat k.
Proof.
  revert a b; induction k as [|k IH]; intros a b E.
  - simpl. now rewrite !N.mod_1_r.
  - simpl in E.
    apply append_inj_length in E as [E1 E2];
      [|now rewrite !length_hex_digits].
    injection E2 as E2. apply (f_equal UUID.hex_value) in E2.
    rewrite !hex_value_digit in E2 by now apply N.mod_lt.
    apply IH in E1.
    rewrite Nat2N.inj_succ, N.pow_succ_r'.
    rewrite !N.Div0.mod_mul_r. congruence.
Qed.

Lemma hex_inj u1 u2 :
  UUID.in_range u1 -> UUID.in_range u2 -> UUID.hex u1 = UUID.hex u2 -> u1 = u2.
Proof.
  unfold UUID.in_range, UUID.hex. intros R1 R2 E.
  apply hex_digits_inj in E.
  change (16 ^ N.of_nat 32) with (2 ^ 128) in E.
  now rewrite !N.mod_small in E.
Qed.

Lemma length_hex u : String.length (UUID.hex u) = 32%nat.
Proof. apply length_hex_digits. Qed.

Lemma hex_all_hex u : Str.all UUID.is_hex_char (UUID.hex u) = true.
Proof. apply hex_digits_all_hex. Qed.

Lemma hex_not_contains c u :
  UUID.is_hex_char c = false -> Str.contains c (UUID.hex u) = false.
Proof. intros. eapply all_not_contains; [apply hex_all_hex | assumption]. Qed.

Lemma hex_neq_short u s : (String.length s < 32)%nat -> (UUID.hex u =? s)%string = false.
Proof.
  intros L. apply String.eqb_neq. intros E.
  apply (f_equal String.length) in E. rewrite length_hex in E. lia.
Qed.

Lemma hex_simple_name u : Fs.simple_name (UUID.hex u) = true.
Proof.
  unfold Fs.simple_name.
  rewrite !hex_neq_short by (simpl; lia).
  now rewrite hex_not_contains.
Qed.

Lemma url_safe_intro s :
  Str.contains "?" s = false -> Str.contains "#" s = false ->
  Str.contains "009" s = false -> Str.contains "013" s = false ->
  Str.contains "010" s = false -> url_safe s = true.
Proof. unfold url_safe; simpl. now intros -> -> -> -> ->. Qed.

Lemma hex_url_safe u : url_safe (UUID.hex u) = true.
Proof. apply url_safe_intro; now apply hex_not_contains. Qed.

End HexFacts.

#[local] Arguments UUID.hex : simpl never.

(** ** The filesystem *)

Section FsFacts.

Implicit Types (fs : gmap (list string) Fs.entry).
Implicit Types (cur D P k cwd : list string) (comps : list string).

Lemma walk_app fs cur comps1 comps2 :
  Fs.walk fs cur (comps1 ++ comps2)%list =
  match Fs.walk fs cur comps1 with
  | Return mid => Fs.walk fs mid comps2
  | Raise e => Raise e
  end.
Proof.
  revert cur; induction comps1 as [|c comps1 IH]; intros cur; simpl;
    [reflexivity|].
  destruct (fs !! cur) as [[|]|]; auto.
Qed.

Lemma step_simple cur t : Fs.simple_name t = true -> Fs.step cur t = (cur ++ [t])%list.
Proof.
  unfold Fs.simple_name, Fs.step.
  destruct (t =? "")%string, (t =? ".")%string, (t =? "..")%string;
    simpl; intros; try discriminate; reflexivity.
Qed.

Lemma simple_name_split t : Fs.simple_name t = true -> Str.split "/" t = [t].
Proof.
  intros E. apply split_absent. unfold Fs.simple_name in E.
  destruct (Str.contains "/" t); [|reflexivity].
  now rewrite andb_false_r in E.
Qed.

(** Creating or overwriting an entry that is not a directory does not
    change where pathnames lead. *)
Lemma walk_insert fs cur comps P p e :
  fs !! p <> Some Fs.Dir ->
  Fs.walk fs cur comps = Return P ->
  Fs.walk (<[p := e]> fs) cur comps = Return P.
Proof.
  intros Hp. revert cur; induction comps as [|c comps IH]; intros cur; simpl;
    [auto|].
  destruct (fs !! cur) as [[|]|] eqn:E; try discriminate.
  intros W. rewrite lookup_insert_ne by congruence. rewrite E. auto.
Qed.

(** What was written is what is read. *)
Lemma read_after_write fs cwd pathname data fs' :
  Fs.write_file fs cwd pathname data = (Return tt, fs') ->
  Fs.read_file fs' cwd pathname = Return data.
Proof.
  unfold Fs.write_file, Fs.read_file, Fs.resolve.
  destruct (pathname =? "")%string; [discriminate|].
  destruct (Fs.walk fs _ _) as [p|] eqn:W; [|discriminate].
  assert (fs !! p <> Some Fs.Dir -> (Return tt, <[p:=Fs.File data]> fs) = (Return tt, fs') ->
          match Fs.walk fs' (Fs.origin cwd pathname) (Str.split "/" pathname) with
          | Return p0 =>
              match fs' !! p0 with
              | Some (Fs.File data0) => Return data0
              | Some Fs.Dir => Raise (OSError IsADirectoryError)
              | None => Raise (OSError FileNotFoundError)
              end
          | Raise e => Raise e
          end = Return data) as K.
  { intros Hp [= <-]. rewrite (walk_insert _ _ _ _ _ _ Hp W).
    now rewrite lookup_insert_eq. }
  destruct (fs !! p) as [[|]|] eqn:E; try discriminate; apply K; congruence.
Qed.

Lemma remove_subtree_outside D fs k :
  ~ (D `prefix_of` k) \/ k = [] -> Fs.remove_subtree D fs !! k = fs !! k.
Proof.
  intros O. unfold Fs.remove_subtree.
  destruct (fs !! k) as [e|] eqn:E.
  - apply map_lookup_filter_Some. split; [assumption | exact O].
  - apply map_lookup_filter_None. left; assumption.
Qed.

Lemma remove_subtree_inside D fs k :
  D `prefix_of` k -> k <> [] -> Fs.remove_subtree D fs !! k = None.
Proof.
  intros I N. unfold Fs.remove_subtree.
  apply map_lookup_filter_None. right. intros e _ [O|O]; simpl in O; auto.
Qed.

Lemma remove_subtree_lookup D fs k :
  Fs.remove_subtree D fs !! k = fs !! k \/ Fs.remove_subtree D fs !! k = None.
Proof.
  destruct (decide (D `prefix_of` k)) as [I|O];
    [destruct (decide (k = [])) as [->|N]|].
  - left. apply remove_subtree_outside; auto.
  - right. now apply remove_subtree_inside.
  - left. apply remove_subtree_outside; auto.
Qed.

Lemma remove_subtree_idemp D fs :
  Fs.remove_subtree D (Fs.remove_subtree D fs) = Fs.remove_subtree D fs.
Proof.
  apply map_eq. intros k.
  destruct (decide (D `prefix_of` k)) as [I|O];
    [destruct (decide (k = [])) as [->|N]|].
  - apply remove_subtree_outside; auto.
  - now rewrite !remove_subtree_inside.
  - apply remove_subtree_outside; auto.
Qed.

(** After a subtree is removed a pathname leads where it led before, or
    nowhere. *)
Lemma walk_remove_subtree D fs cur comps P :
  Fs.walk fs cur comps = Return P ->
  Fs.walk (Fs.remove_subtree D fs) cur comps = Return P
  \/ Fs.walk (Fs.remove_subtree D fs) cur comps = Raise (OSError FileNotFoundError).
Proof.
  revert cur; induction comps as [|c comps IH]; intros cur; simpl; [auto|].
  destruct (fs !! cur) as [[|]|] eqn:E; try discriminate.
  intros W. destruct (remove_subtree_lookup D fs cur) as [-> | ->]; [|auto].
  rewrite E. auto.
Qed.

(** Without [".."] a walk only descends. *)
Lemma walk_names fs cur comps P :
  forallb (fun c => negb (c =? "..")%string) comps = true ->
  Fs.walk fs cur comps = Return P ->
  P = (cur ++ Fs.names comps)%list.
Proof.
  revert cur; induction comps as [|c comps IH]; intros cur; simpl.
  - intros _ [= <-]. now rewrite app_nil_r.
  - intros N. apply andb_prop in N as [Nc N].
    destruct (fs !! cur) as [[|]|]; try discriminate.
    intros W. apply (IH _ N) in W. subst P. unfold Fs.step.
    destruct (c =? "")%string, (c =? ".")%string; simpl; try reflexivity.
    destruct (c =? "..")%string; [discriminate|].
    now rewrite <- app_assoc.
Qed.

(** Frame: a walk that never steps up and ends outside the removed
    subtree is not affected by the removal. *)
Lemma walk_frame D fs cur comps P :
  forallb (fun c => negb (c =? "..")%string) comps = true ->
  Fs.walk fs cur comps = Return P ->
  ~ (D `prefix_of` P) ->
  Fs.walk (Fs.remove_subtree D fs) cur comps = Return P.
Proof.
  revert cur; induction comps as [|c comps IH]; intros cur N W O;
    [exact W|].
  pose proof (walk_names _ _ _ _ N W) as EP.
  simpl in *. apply andb_prop in N as [Nc N].
  destruct (fs !! cur) as [[|]|] eqn:E; try discriminate.
  rewrite remove_subtree_outside, E; [auto|].
  left. intros I. apply O. rewrite EP. now apply prefix_app_r.
Qed.

Lemma origin_join cwd dir rest :
  dir <> "" -> Fs.origin cwd (dir +:+ "/" +:+ rest) = Fs.origin cwd dir.
Proof. destruct dir; [congruence | reflexivity]. Qed.

(** Resolving [dir + "/" + rest]: resolve [dir], then walk on. *)
Lemma resolve_join fs cwd dir rest :
  dir <> "" ->
  Fs.resolve fs cwd (dir +:+ "/" +:+ rest) =
  match Fs.resolve fs cwd dir with
  | Return D => Fs.walk fs D (Str.split "/" rest)
  | Raise e => Raise e
  end.
Proof.
  intros N. unfold Fs.resolve. rewrite (origin_join _ _ _ N).
  destruct dir as [|a dir]; [congruence|].
  change ((String a dir +:+ "/" +:+ rest =? "")%string) with false.
  change ((String a dir =? "")%string) with false. cbv iota.
  change ("/" +:+ rest) with (String "/" rest).
  rewrite split_append. apply walk_app.
Qed.

(** Resolving an entry [t] of the directory [dir]. *)
Lemma resolve_child fs cwd dir t :
  dir <> "" -> Fs.simple_name t = true ->
  Fs.resolve fs cwd (dir +:+ "/" +:+ t) =
  match Fs.resolve fs cwd dir with
  | Return D =>
      match fs !! D with
      | Some Fs.Dir => Return (D ++ [t])%list
      | Some (Fs.File _) => Raise (OSError NotADirectoryError)
      | None => Raise (OSError FileNotFoundError)
      end
  | Raise e => Raise e
  end.
Proof.
  intros N S. rewrite (resolve_join _ _ _ _ N), (simple_name_split _ S).
  destruct (Fs.resolve fs cwd dir) as [D|]; [|reflexivity]. simpl.
  now rewrite (step_simple _ _ S).
Qed.

End FsFacts.

Lemma pair_fst_snd {A B} (x : A * B) (a : A) : fst x = a -> x = (a, snd x).
Proof. destruct x; simpl; now intros ->. Qed.

(** ** The calls of [DataStoreIO], unfolded *)

Section StoreFacts.

Context `{NetlocCheck}.

Lemma get_pathname_from_url_eq u w :
  DataStoreIO.get_pathname_from_url u w =
  (match DataStoreIO.get_filepath (datastore_url (opts w)) with
   | Raise e => Raise e
   | Return root =>
       match DataStoreIO.get_filepath u with
       | Raise e => Raise e
       | Return rel => Return (root +:+ "/" +:+ rel)
       end
   end, w).
Proof.
  unfold DataStoreIO.get_pathname_from_url, bind, options, lift, ret.
  destruct (DataStoreIO.get_filepath (datastore_url (opts w))); [|reflexivity].
  destruct (DataStoreIO.get_filepath u); reflexivity.
Qed.

Lemma read_eq h w :
  DataStoreIO.read h w =
  (match fst (DataStoreIO.get_pathname_from_url (DataStoreIO.url h) w) with
   | Raise e => Raise e
   | Return pathname => Fs.read_file (fs w) (cwd w) pathname
   end, w).
Proof.
  unfold DataStoreIO.read, bind. rewrite get_pathname_from_url_eq. simpl.
  destruct (DataStoreIO.get_filepath (datastore_url (opts w))); [|reflexivity].
  destruct (DataStoreIO.get_filepath (DataStoreIO.url h)); reflexivity.
Qed.

(** [read] never changes the state. *)
Lemma read_state h w : snd (DataStoreIO.read h w) = w.
Proof. now rewrite read_eq. Qed.

Lemma delete_eq p w :
  DataStoreIO.delete p w =
  match DataStoreIO.get_filepath (datastore_url (opts w)) with
  | Raise e => (Raise e, w)
  | Return root => rmtree (root +:+ "/" +:+ p) true w
  end.
Proof.
  unfold DataStoreIO.delete, bind, options, lift.
  destruct (DataStoreIO.get_filepath (datastore_url (opts w))); reflexivity.
Qed.

Lemma get_next_pathname_url_eq prefix w :
  DataStoreIO.get_next_pathname_url prefix w =
  let p := default_if_null prefix (datastore_relative_path_prefix (opts w)) in
  match DataStoreIO.get_filepath (datastore_url (opts w)) with
  | Raise e => (Raise e, w)
  | Return root =>
      match Fs.makedirs (fs w) (cwd w) (root +:+ "/" +:+ p) with
      | (Raise e, fs') => (Raise e, with_fs w fs')
      | (Return _, fs') =>
          (Return (object_pathname root p (UUID.hex (upcoming_uuid w)),
                   object_url p (UUID.hex (upcoming_uuid w))),
           mkWorld fs' (cwd w) (opts w) (uuid_seq w) (S (uuid_calls w)))
      end
  end.
Proof.
  unfold DataStoreIO.get_next_pathname_url, bind, options, lift, ret,
    os_makedirs_exist_ok, next_uuid; cbv zeta.
  destruct (DataStoreIO.get_filepath (datastore_url (opts w))); [|reflexivity].
  unfold os_sep.
  destruct (Fs.makedirs _ _ _) as [[[]|] fs']; reflexivity.
Qed.

(** A successful [write], step by step. *)
Lemma write_Return data prefix w h w' :
  DataStoreIO.write data prefix w = (Return h, w') ->
  let p := default_if_null prefix (datastore_relative_path_prefix (opts w)) in
  let t := UUID.hex (upcoming_uuid w) in
  exists root fs1 fs2,
    DataStoreIO.get_filepath (datastore_url (opts w)) = Return root
    /\ Fs.makedirs (fs w) (cwd w) (root +:+ "/" +:+ p) = (Return tt, fs1)
    /\ DataStoreIO.get_next_pathname_url prefix w =
         (Return (object_pathname root p t, object_url p t),
          mkWorld fs1 (cwd w) (opts w) (uuid_seq w) (S (uuid_calls w)))
    /\ Fs.write_file fs1 (cwd w) (object_pathname root p t) data = (Return tt, fs2)
    /\ h = DataStoreIO.mk (object_url p t)
    /\ w' = mkWorld fs2 (cwd w) (opts w) (uuid_seq w) (S (uuid_calls w)).
Proof.
  intros W p t. unfold DataStoreIO.write, bind in W.
  pose proof (get_next_pathname_url_eq prefix w) as G. cbv zeta in G.
  fold p t in G.
  destruct (DataStoreIO.get_filepath (datastore_url (opts w))) as [root|];
    [|rewrite G in W; discriminate].
  destruct (Fs.makedirs _ _ _) as [[[]|] fs1] eqn:M;
    [|rewrite G in W; discriminate].
  rewrite G in W. unfold open_wb_write, ret in W. simpl in W.
  destruct (Fs.write_file _ _ _ _) as [[[]|] fs2] eqn:F; [|discriminate].
  injection W as <- <-.
  exists root, fs1, fs2. repeat apply conj; auto.
Qed.

(** [get_filepath] gives back what the URL was built from. *)
Lemma get_filepath_object_url p t :
  url_safe p = true -> url_safe t = true ->
  DataStoreIO.get_filepath ("file:///" +:+ p +:+ "/" +:+ t)
  = Return (p +:+ "/" +:+ t).
Proof.
  intros Sp St. rewrite get_filepath_file, file_path_safe; [reflexivity|].
  rewrite !url_safe_append, Sp, St. reflexivity.
Qed.

(** The URL handed out resolves to the pathname handed out with it. *)
Lemma get_pathname_from_url_next prefix w pathname url w' :
  url_safe (default_if_null prefix (datastore_relative_path_prefix (opts w)))
  = true ->
  DataStoreIO.get_next_pathname_url prefix w = (Return (pathname, url), w') ->
  DataStoreIO.get_pathname_from_url url w' = (Return pathname, w').
Proof.
  intros S G.
  rewrite get_next_pathname_url_eq in G. cbv zeta in G.
  destruct (DataStoreIO.get_filepath (datastore_url (opts w))) as [root|] eqn:R;
    [|discriminate].
  destruct (Fs.makedirs _ _ _) as [[[]|] fs1]; [|discriminate].
  injection G as <- <- <-.
  rewrite get_pathname_from_url_eq. simpl opts. rewrite R.
  unfold object_url, os_sep.
  rewrite get_filepath_object_url by (auto using hex_url_safe).
  unfold object_pathname, os_sep. now rewrite append_assoc.
Qed.

End StoreFacts.

(** * The claims *)

Section Claims.

Context `{NetlocCheck}.

(** C2. Resolver correctness: [get_filepath "file:///a/b"] returns ["a/b"];
    on a URL whose parsed scheme is not [file] (as ["http://x"])
    [get_filepath] raises [InvalidInput] naming the scheme; on a URL whose
    scheme is [file] but which does not literally start with [file:///]
    (as ["file://a/b"]) it raises [InvalidInput]; an exception of
    [urlparse] is passed on; and whenever it returns, the URL starts with
    [file:///] and has scheme [file]. *)
Theorem C2_resolver_correctness :
  DataStoreIO.get_filepath "file:///a/b" = Return "a/b"
  /\ (forall u r, Url.urlparse u = Return r -> Url.scheme r <> "file" ->
      DataStoreIO.get_filepath u
      = Raise (InvalidInput ("Unsupported URL scheme: " +:+ Url.scheme r)))
  /\ DataStoreIO.get_filepath "http://x"
     = Raise (InvalidInput "Unsupported URL scheme: http")
  /\ (forall u r, Url.urlparse u = Return r -> Url.scheme r = "file" ->
      Str.startswith "file:///" u = false ->
      DataStoreIO.get_filepath u
      = Raise (InvalidInput
                 ("Invalid file path, it must start with file:/// but found "
                  +:+ u)))
  /\ DataStoreIO.get_filepath "file://a/b"
     = Raise (InvalidInput
                "Invalid file path, it must start with file:/// but found file://a/b")
  /\ (forall u e, Url.urlparse u = Raise e -> DataStoreIO.get_filepath u = Raise e)
  /\ (forall u p, DataStoreIO.get_filepath u = Return p ->
      Str.startswith "file:///" u = true
      /\ exists r, Url.urlparse u = Return r /\ Url.scheme r = "file").
Proof.
  repeat apply conj.
  - reflexivity.
  - intros u r E N. unfold DataStoreIO.get_filepath. rewrite E.
    apply String.eqb_neq in N. now rewrite N.
  - reflexivity.
  - intros u r E S U. unfold DataStoreIO.get_filepath. rewrite E, S, U.
    reflexivity.
  - reflexivity.
  - intros u e E. unfold DataStoreIO.get_filepath. now rewrite E.
  - intros u p E. split; [eapply get_filepath_Return; eassumption|].
    unfold DataStoreIO.get_filepath in E.
    destruct (Url.urlparse u) as [r|]; [|discriminate].
    exists r. split; [reflexivity|].
    destruct (Url.scheme r =? "file")%string eqn:S; [|discriminate].
    now apply String.eqb_eq.
Qed.

(** C10 (amended). The resolver inverts the URL constructor: for a prefix
    and a token with no ["?"], no ["#"] and no tab, carriage return or
    line feed, [get_filepath ("file:///" + p + "/" + t)] returns
    [p + "/" + t]; so when the effective prefix is such a string,
    [get_pathname_from_url] maps the URL that [get_next_pathname_url]
    (hence [write]) hands out to the pathname it hands out with it. *)
Theorem C10_resolver_inverts_constructor :
  (forall p t, url_safe p = true -> url_safe t = true ->
     DataStoreIO.get_filepath ("file:///" +:+ p +:+ "/" +:+ t)
     = Return (p +:+ "/" +:+ t))
  /\ (forall prefix w pathname url w',
        url_safe (default_if_null prefix (datastore_relative_path_prefix (opts w)))
        = true ->
        DataStoreIO.get_next_pathname_url prefix w = (Return (pathname, url), w') ->
        DataStoreIO.get_pathname_from_url url w' = (Return pathname, w')).
Proof.
  split.
  - exact get_filepath_object_url.
  - exact get_pathname_from_url_next.
Qed.

(** C4. URL and pathname form: a successful [write] with effective prefix
    [p], when the generator hands out the UUID whose [hex] is [t], has
    stored the payload at the pathname [Root/p/t] (which is the pathname
    [get_next_pathname_url] computed), and returns the handle whose URL is
    exactly ["file:///" + p + "/" + t]; [t] is 32 hexadecimal digits. *)
Theorem C4_url_pathname_form data prefix w h w' :
  DataStoreIO.write data prefix w = (Return h, w') ->
  let p := default_if_null prefix (datastore_relative_path_prefix (opts w)) in
  let t := UUID.hex (upcoming_uuid w) in
  exists root,
    DataStoreIO.get_filepath (datastore_url (opts w)) = Return root
    /\ fst (DataStoreIO.get_next_pathname_url prefix w)
       = Return (root +:+ "/" +:+ p +:+ "/" +:+ t, "file:///" +:+ p +:+ "/" +:+ t)
    /\ Fs.read_file (fs w') (cwd w') (root +:+ "/" +:+ p +:+ "/" +:+ t)
       = Return data
    /\ DataStoreIO.url h = "file:///" +:+ p +:+ "/" +:+ t
    /\ String.length t = 32
    /\ Str.all UUID.is_hex_char t = true.
Proof.
  intros W p t.
  destruct (write_Return _ _ _ _ _ W) as (root & fs1 & fs2 & R & M & G & F & -> & ->).
  fold p t in M, G, F. exists root.
  assert (object_pathname root p t = root +:+ "/" +:+ p +:+ "/" +:+ t) as E
    by (unfold object_pathname, os_sep; now rewrite append_assoc).
  rewrite E in *.
  repeat apply conj.
  - exact R.
  - rewrite G. reflexivity.
  - simpl. eapply read_after_write; eassumption.
  - reflexivity.
  - apply length_hex.
  - apply hex_all_hex.
Qed.

(** C3. Uniqueness: two successive successful [write] calls with the same
    prefix and payload return distinct URLs when the two UUIDs the
    generator hands out are distinct; the store checks nothing itself, so
    when the generator repeats a UUID the two URLs are the same. *)
Theorem C3_uniqueness data prefix w h1 w1 h2 w2 :
  DataStoreIO.write data prefix w = (Return h1, w1) ->
  DataStoreIO.write data prefix w1 = (Return h2, w2) ->
  UUID.in_range (uuid_seq w (uuid_calls w)) ->
  UUID.in_range (uuid_seq w (S (uuid_calls w))) ->
  (uuid_seq w (uuid_calls w) <> uuid_seq w (S (uuid_calls w)) ->
   DataStoreIO.url h1 <> DataStoreIO.url h2)
  /\ (uuid_seq w (uuid_calls w) = uuid_seq w (S (uuid_calls w)) ->
      DataStoreIO.url h1 = DataStoreIO.url h2).
Proof.
  intros W1 W2 R1 R2.
  destruct (write_Return _ _ _ _ _ W1) as (? & ? & ? & _ & _ & _ & _ & -> & ->).
  destruct (write_Return _ _ _ _ _ W2) as (? & ? & ? & _ & _ & _ & _ & -> & _).
  unfold upcoming_uuid; simpl. split.
  - intros N E. apply N. unfold object_url in E.
    do 3 apply append_inv_head in E. now apply hex_inj.
  - now intros ->.
Qed.

(** *** Reading *)

Lemma read_file_stat fs0 cwd0 pathname :
  Fs.read_file fs0 cwd0 pathname =
  match Fs.stat fs0 cwd0 pathname with
  | Return (Fs.File data) => Return data
  | Return Fs.Dir => Raise (OSError IsADirectoryError)
  | Raise e => Raise e
  end.
Proof.
  unfold Fs.read_file, Fs.stat.
  destruct (Fs.resolve fs0 cwd0 pathname) as [p|]; [|reflexivity].
  destruct (fs0 !! p) as [[|]|]; reflexivity.
Qed.

Lemma read_at h w pathname :
  DataStoreIO.get_pathname_from_url (DataStoreIO.url h) w = (Return pathname, w) ->
  DataStoreIO.read h w = (Fs.read_file (fs w) (cwd w) pathname, w).
Proof. intros G. rewrite read_eq, G. reflexivity. Qed.

(** What a handle resolves to depends on the configured root only. *)
Lemma get_pathname_from_url_config u w w' :
  datastore_url (opts w') = datastore_url (opts w) ->
  fst (DataStoreIO.get_pathname_from_url u w')
  = fst (DataStoreIO.get_pathname_from_url u w).
Proof. intros E. rewrite !get_pathname_from_url_eq, E. reflexivity. Qed.

Lemma read_config h w w' :
  fs w' = fs w -> cwd w' = cwd w ->
  datastore_url (opts w') = datastore_url (opts w) ->
  fst (DataStoreIO.read h w') = fst (DataStoreIO.read h w).
Proof.
  intros Ef Ec Eo. rewrite !read_eq. simpl.
  rewrite (get_pathname_from_url_config _ _ _ Eo), Ef, Ec. reflexivity.
Qed.

(** A call that leaves the state alone is determined by its outcome. *)
Lemma get_pathname_from_url_fst u w r :
  fst (DataStoreIO.get_pathname_from_url u w) = r ->
  DataStoreIO.get_pathname_from_url u w = (r, w).
Proof. rewrite get_pathname_from_url_eq. now intros <-. Qed.

Lemma read_fst h w r :
  fst (DataStoreIO.read h w) = r -> DataStoreIO.read h w = (r, w).
Proof. rewrite read_eq. now intros <-. Qed.

(** C5. Read failure: the outcome of [read] is the outcome of opening and
    reading the pathname the handle's URL resolves to, whatever it is,
    and the state is left as it was. So when that pathname does not
    exist (the filesystem answers [ENOENT]) [read] raises the
    filesystem's [FileNotFoundError], and when it names a stored file
    [read] returns the whole contents of the file. *)
Theorem C5_read_failure h w pathname :
  DataStoreIO.get_pathname_from_url (DataStoreIO.url h) w = (Return pathname, w) ->
  DataStoreIO.read h w = (Fs.read_file (fs w) (cwd w) pathname, w)
  /\ (Fs.stat (fs w) (cwd w) pathname = Raise (OSError FileNotFoundError) ->
      DataStoreIO.read h w = (Raise (OSError FileNotFoundError), w))
  /\ (forall data,
        Fs.stat (fs w) (cwd w) pathname = Return (Fs.File data) ->
        DataStoreIO.read h w = (Return data, w)).
Proof.
  intros G. rewrite (read_at _ _ _ G), read_file_stat.
  repeat apply conj; [reflexivity | now intros -> | now intros data ->].
Qed.

Context `{Codec}.

Lemma read_deserialize_eq h T w :
  DataStoreIO.read_deserialize h T w =
  (match fst (DataStoreIO.read h w) with
   | Raise e => Raise e
   | Return data =>
       match deserialize data with
       | Raise e => Raise e
       | Return obj =>
           match T with
           | Some T =>
               match validate_type obj T with
               | Return _ => Return obj
               | Raise e => Raise e
               end
           | None => Return obj
           end
       end
   end, w).
Proof.
  unfold DataStoreIO.read_deserialize, bind.
  destruct h as [u]; simpl DataStoreIO.url.
  pose proof (read_state (DataStoreIO.mk u) w) as S.
  destruct (DataStoreIO.read (DataStoreIO.mk u) w) as [[data|e] w0];
    simpl in S; subst w0; [|reflexivity].
  unfold lift, ret; simpl.
  destruct (deserialize data) as [obj|]; [|reflexivity].
  destruct T as [T|]; [|reflexivity].
  destruct (validate_type obj T) as [[]|]; reflexivity.
Qed.

(** C6. Type check: when the stored payload decodes to a value that is
    not a mapping (a sequence, say), reading it back with the expected
    shape [dict] raises [TypeMismatch]; so does [DataStore.from_url],
    whose check comes before the wrapping. *)
Theorem C6_type_check h w data v :
  DataStoreIO.read h w = (Return data, w) ->
  deserialize data = Return v ->
  shape v <> dict_ ->
  DataStoreIO.read_deserialize h (Some dict_) w = (Raise TypeMismatch, w)
  /\ DataStore.from_url (DataStoreIO.url h) w = (Raise TypeMismatch, w).
Proof.
  intros R D S.
  assert (DataStoreIO.read_deserialize h (Some dict_) w = (Raise TypeMismatch, w)) as K.
  { rewrite read_deserialize_eq, R. simpl. rewrite D.
    unfold validate_type. now rewrite bool_decide_eq_false_2. }
  split; [exact K|].
  unfold DataStore.from_url, bind. destruct h as [u]. simpl DataStoreIO.url in *.
  now rewrite K.
Qed.

(** C1 (amended). Round trip: let the effective prefix have no ["?"], no
    ["#"] and no tab, carriage return or line feed, and let the codec
    round-trip [v]. When [serialize_write v] returns a handle, then
    [read_deserialize] of that handle with expected type [shape v]
    returns [v], in any later state with the same directory tree, current
    directory and configured root. *)
Theorem C1_round_trip v prefix w h w1 w2 :
  url_safe (default_if_null prefix (datastore_relative_path_prefix (opts w)))
  = true ->
  (forall data, serialize v = Return data -> deserialize data = Return v) ->
  DataStoreIO.serialize_write v prefix w = (Return h, w1) ->
  fs w2 = fs w1 -> cwd w2 = cwd w1 ->
  datastore_url (opts w2) = datastore_url (opts w1) ->
  DataStoreIO.read_deserialize h (Some (shape v)) w2 = (Return v, w2).
Proof.
  intros Safe RT W Ef Ec Eo.
  unfold DataStoreIO.serialize_write, bind, lift in W.
  destruct (serialize v) as [data|] eqn:Ser; [|discriminate].
  specialize (RT _ eq_refl).
  destruct (write_Return _ _ _ _ _ W) as (root & fs1 & fs2 & R & M & G & F & -> & ->).
  pose proof (get_pathname_from_url_next _ _ _ _ _ Safe G) as K.
  rewrite read_deserialize_eq.
  rewrite (read_config _ _ _ Ef Ec Eo), read_eq.
  simpl DataStoreIO.url.
  rewrite (get_pathname_from_url_config _
             (mkWorld fs1 (cwd w) (opts w) (uuid_seq w) (S (uuid_calls w))))
    by reflexivity.
  rewrite K. simpl.
  rewrite (read_after_write _ _ _ _ _ F), RT.
  unfold validate_type. now rewrite bool_decide_eq_true_2.
Qed.

(** *** Deleting *)

Lemma with_fs_same w : with_fs w (fs w) = w.
Proof. now destruct w. Qed.

Lemma rmtree_eq pathname ignore w :
  rmtree pathname ignore w =
  (fst (Fs.rmtree (fs w) (cwd w) pathname ignore),
   with_fs w (snd (Fs.rmtree (fs w) (cwd w) pathname ignore))).
Proof. unfold rmtree. now destruct (Fs.rmtree _ _ _ _). Qed.

(** With [ignore_errors] the call returns whatever it meets. *)
Lemma rmtree_ignore_Return fs0 cwd0 pathname :
  fst (Fs.rmtree fs0 cwd0 pathname true) = Return tt.
Proof.
  unfold Fs.rmtree. destruct (Fs.resolve fs0 cwd0 pathname) as [p|]; [|reflexivity].
  destruct (fs0 !! p) as [[|]|]; try reflexivity.
  simpl. now destruct (bool_decide (p = [])).
Qed.

(** The flag changes what is raised, not what is removed. *)
Lemma rmtree_tree fs0 cwd0 pathname ignore :
  snd (Fs.rmtree fs0 cwd0 pathname true) = snd (Fs.rmtree fs0 cwd0 pathname ignore).
Proof.
  unfold Fs.rmtree. destruct (Fs.resolve fs0 cwd0 pathname) as [p|]; [|reflexivity].
  destruct (fs0 !! p) as [[|]|]; reflexivity.
Qed.

Lemma rmtree_not_dir fs0 cwd0 pathname ignore :
  Fs.isdir fs0 cwd0 pathname = false ->
  snd (Fs.rmtree fs0 cwd0 pathname ignore) = fs0.
Proof.
  unfold Fs.isdir, Fs.stat, Fs.rmtree.
  destruct (Fs.resolve fs0 cwd0 pathname) as [p|]; [|reflexivity].
  destruct (fs0 !! p) as [[|]|]; try reflexivity. discriminate.
Qed.

Lemma rmtree_idemp fs0 cwd0 pathname :
  snd (Fs.rmtree (snd (Fs.rmtree fs0 cwd0 pathname true)) cwd0 pathname true)
  = snd (Fs.rmtree fs0 cwd0 pathname true).
Proof.
  unfold Fs.rmtree at 2 3.
  destruct (Fs.resolve fs0 cwd0 pathname) as [p|] eqn:R;
    [|simpl; unfold Fs.rmtree; now rewrite R].
  destruct (fs0 !! p) as [[|]|] eqn:E;
    try (simpl; unfold Fs.rmtree; now rewrite R, E).
  simpl. unfold Fs.rmtree, Fs.resolve in *.
  destruct (pathname =? "")%string; [discriminate|].
  destruct (walk_remove_subtree p _ _ _ _ R) as [-> | ->]; [|reflexivity].
  destruct (remove_subtree_lookup p fs0 p) as [-> | ->]; [|reflexivity].
  rewrite E. simpl. apply remove_subtree_idemp.
Qed.

Lemma delete_not_dir prefix w root :
  DataStoreIO.get_filepath (datastore_url (opts w)) = Return root ->
  Fs.isdir (fs w) (cwd w) (root +:+ "/" +:+ prefix) = false ->
  DataStoreIO.delete prefix w = (Return tt, w).
Proof.
  intros R N. rewrite delete_eq, R, rmtree_eq, rmtree_ignore_Return.
  now rewrite (rmtree_not_dir _ _ _ _ N), with_fs_same.
Qed.

Lemma rmtree_not_dir_state pathname ignore w :
  Fs.isdir (fs w) (cwd w) pathname = false ->
  rmtree pathname ignore w
  = (fst (Fs.rmtree (fs w) (cwd w) pathname ignore), w).
Proof.
  intros N. now rewrite rmtree_eq, (rmtree_not_dir _ _ _ _ N), with_fs_same.
Qed.

(** C7. Idempotent delete: with a root that resolves, [delete prefix]
    returns and leaves the state as it is when [Root/prefix] is not an
    existing directory; and in every state [delete prefix] returns, after
    which a second [delete prefix] returns too and changes nothing. *)
Theorem C7_idempotent_delete prefix w root :
  DataStoreIO.get_filepath (datastore_url (opts w)) = Return root ->
  (Fs.isdir (fs w) (cwd w) (root +:+ "/" +:+ prefix) = false ->
   DataStoreIO.delete prefix w = (Return tt, w))
  /\ exists w1,
       DataStoreIO.delete prefix w = (Return tt, w1)
       /\ DataStoreIO.delete prefix w1 = (Return tt, w1).
Proof.
  intros R. split.
  - now apply delete_not_dir.
  - eexists. split.
    + rewrite delete_eq, R, rmtree_eq, rmtree_ignore_Return. reflexivity.
    + rewrite delete_eq. simpl opts. rewrite R, rmtree_eq, rmtree_ignore_Return.
      simpl. now rewrite rmtree_idemp.
Qed.

(** C9 (amended). Delete error propagation: [delete] lets no filesystem
    error through. When the configured root resolves, [delete prefix]
    returns normally and leaves the tree that a [rmtree] without
    [ignore_errors] leaves, whatever that [rmtree] raises; the only
    exception [delete] raises is the one of resolving the root URL,
    raised before anything is touched. *)
Theorem C9_delete_error_propagation prefix w :
  match DataStoreIO.get_filepath (datastore_url (opts w)) with
  | Return root =>
      DataStoreIO.delete prefix w
      = (Return tt, snd (rmtree (root +:+ "/" +:+ prefix) false w))
  | Raise e => DataStoreIO.delete prefix w = (Raise e, w)
  end.
Proof.
  rewrite delete_eq.
  destruct (DataStoreIO.get_filepath (datastore_url (opts w))) as [root|];
    [|reflexivity].
  rewrite !rmtree_eq, rmtree_ignore_Return. simpl.
  now rewrite (rmtree_tree _ _ _ false).
Qed.

(** *** Deletion scope *)

Lemma simple_name_not_dotdot s : Fs.simple_name s = true -> (s =? "..")%string = false.
Proof.
  unfold Fs.simple_name. destruct (s =? "..")%string; [|reflexivity].
  now rewrite andb_false_r.
Qed.

Lemma names_simple s : Fs.simple_name s = true -> Fs.names [s] = [s].
Proof.
  unfold Fs.simple_name, Fs.names. simpl.
  destruct (s =? "")%string, (s =? ".")%string; simpl; try discriminate.
  reflexivity.
Qed.

Lemma names_app l1 l2 : Fs.names (l1 ++ l2) = (Fs.names l1 ++ Fs.names l2)%list.
Proof. apply List.filter_app. Qed.

Lemma origin_root cwd0 root x y :
  Fs.origin cwd0 (root +:+ "/" +:+ x) = Fs.origin cwd0 (root +:+ "/" +:+ y).
Proof. now destruct root. Qed.

Lemma join_nonempty root x : root +:+ "/" +:+ x <> "".
Proof. now destruct root. Qed.

Lemma resolve_walk fs0 cwd0 pathname :
  pathname <> "" ->
  Fs.resolve fs0 cwd0 pathname
  = Fs.walk fs0 (Fs.origin cwd0 pathname) (Str.split "/" pathname).
Proof.
  intros N. unfold Fs.resolve. apply String.eqb_neq in N. now rewrite N.
Qed.

(** An object in a directory that is removed is gone. *)
Lemma read_gone fs0 cwd0 dir t data :
  dir <> "" -> Fs.simple_name t = true ->
  Fs.read_file fs0 cwd0 (dir +:+ "/" +:+ t) = Return data ->
  Fs.read_file (snd (Fs.rmtree fs0 cwd0 dir true)) cwd0 (dir +:+ "/" +:+ t)
  = Raise (OSError FileNotFoundError).
Proof.
  intros N St Rd. unfold Fs.read_file in Rd.
  pose proof (resolve_child fs0 cwd0 dir t N St) as RC.
  destruct (Fs.resolve fs0 cwd0 (dir +:+ "/" +:+ t)) as [P|] eqn:RP;
    [|discriminate].
  unfold Fs.rmtree.
  destruct (Fs.resolve fs0 cwd0 dir) as [D|]; [|discriminate].
  destruct (fs0 !! D) as [[|]|]; try discriminate.
  injection RC as ->. simpl snd.
  unfold Fs.read_file.
  assert (dir +:+ "/" +:+ t <> "") as N' by now destruct dir.
  rewrite resolve_walk in * by assumption.
  assert (Fs.remove_subtree D fs0 !! (D ++ [t])%list = None) as Gone.
  { apply remove_subtree_inside; [now apply prefix_app_r | now destruct D]. }
  destruct (walk_remove_subtree D _ _ _ _ RP) as [-> | ->]; [|reflexivity].
  now rewrite Gone.
Qed.

(** An object of a sibling directory stays. *)
Lemma read_kept fs0 cwd0 root p q t data :
  Fs.no_dotdot root = true ->
  Fs.simple_name p = true -> Fs.simple_name q = true -> p <> q ->
  Fs.simple_name t = true ->
  Fs.read_file fs0 cwd0 (root +:+ "/" +:+ q +:+ "/" +:+ t) = Return data ->
  Fs.read_file (snd (Fs.rmtree fs0 cwd0 (root +:+ "/" +:+ p) true)) cwd0
               (root +:+ "/" +:+ q +:+ "/" +:+ t)
  = Return data.
Proof.
  intros Nr Sp Sq Npq St Rd.
  unfold Fs.rmtree.
  rewrite (resolve_walk _ _ (root +:+ "/" +:+ p)) by apply join_nonempty.
  rewrite (origin_root _ _ p (q +:+ "/" +:+ t)).
  set (o := Fs.origin cwd0 (root +:+ "/" +:+ q +:+ "/" +:+ t)) in *.
  change ("/" +:+ p) with (String "/" p).
  rewrite split_append, (simple_name_split _ Sp).
  destruct (Fs.walk fs0 o (Str.split "/" root ++ [p])) as [D|] eqn:WD;
    [|exact Rd].
  destruct (fs0 !! D) as [[|]|] eqn:ED; try exact Rd. simpl snd.
  unfold Fs.read_file in *.
  rewrite resolve_walk in * by apply join_nonempty. fold o in Rd |- *.
  assert (Str.split "/" (root +:+ "/" +:+ q +:+ "/" +:+ t)
          = (Str.split "/" root ++ [q; t])%list) as Sp'.
  { change ("/" +:+ q +:+ "/" +:+ t) with (String "/" (q +:+ String "/" t)).
    now rewrite !split_append, (simple_name_split _ Sq), (simple_name_split _ St). }
  rewrite Sp' in *.
  assert (forallb (fun c => negb (c =? "..")%string) (Str.split "/" root ++ [p])
          = true) as Np.
  { rewrite forallb_app. unfold Fs.no_dotdot in Nr. rewrite Nr. simpl.
    now rewrite (simple_name_not_dotdot _ Sp). }
  assert (forallb (fun c => negb (c =? "..")%string)
                  (Str.split "/" root ++ [q; t]) = true) as Nq.
  { rewrite forallb_app. unfold Fs.no_dotdot in Nr. rewrite Nr. simpl.
    now rewrite (simple_name_not_dotdot _ Sq), (simple_name_not_dotdot _ St). }
  destruct (Fs.walk fs0 o (Str.split "/" root ++ [q; t])) as [P|] eqn:WP;
    [|discriminate].
  pose proof (walk_names _ _ _ _ Np WD) as ->.
  pose proof (walk_names _ _ _ _ Nq WP) as ->.
  rewrite !names_app, (names_simple _ Sp) in *.
  change [q; t] with ([q] ++ [t])%list in *.
  rewrite names_app, (names_simple _ Sq), (names_simple _ St) in *.
  assert (~ (o ++ Fs.names (Str.split "/" root) ++ [p])%list
            `prefix_of` (o ++ Fs.names (Str.split "/" root) ++ [q] ++ [t])%list)
    as Out.
  { intros I. do 2 apply prefix_app_inv in I.
    apply prefix_cons_inv_1 in I. contradiction. }
  rewrite (walk_frame _ _ _ _ _ Nq WP Out).
  rewrite remove_subtree_outside by now left.
  exact Rd.
Qed.

Lemma get_pathname_from_url_with_fs u w fs' pathname :
  DataStoreIO.get_pathname_from_url u w = (Return pathname, w) ->
  DataStoreIO.get_pathname_from_url u (with_fs w fs')
  = (Return pathname, with_fs w fs').
Proof.
  rewrite !get_pathname_from_url_eq. simpl opts.
  destruct (DataStoreIO.get_filepath (datastore_url (opts w))); [|discriminate].
  destruct (DataStoreIO.get_filepath u); [|discriminate].
  now intros [= <-].
Qed.

(** C8. Deletion scope and frame, for a root that resolves. An object
    under the prefix [p] is a handle that resolves to a pathname
    [Root/p/t], [t] being a name, and that [read] returns bytes for.
    After [delete p] (which returns) reading it raises
    [FileNotFoundError]. When moreover [p] and [q] are distinct names of
    entries of the root (sibling prefixes) and the root's pathname has no
    [".."], an object under [q] is read after [delete p] with the bytes it
    had before. *)
Theorem C8_deletion_scope root w :
  DataStoreIO.get_filepath (datastore_url (opts w)) = Return root ->
  (forall p t h data,
      Fs.simple_name t = true ->
      DataStoreIO.get_pathname_from_url (DataStoreIO.url h) w
      = (Return (root +:+ "/" +:+ p +:+ "/" +:+ t), w) ->
      DataStoreIO.read h w = (Return data, w) ->
      exists w',
        DataStoreIO.delete p w = (Return tt, w')
        /\ DataStoreIO.read h w' = (Raise (OSError FileNotFoundError), w'))
  /\ (forall p q t h data,
        Fs.no_dotdot root = true ->
        Fs.simple_name p = true -> Fs.simple_name q = true -> p <> q ->
        Fs.simple_name t = true ->
        DataStoreIO.get_pathname_from_url (DataStoreIO.url h) w
        = (Return (root +:+ "/" +:+ q +:+ "/" +:+ t), w) ->
        DataStoreIO.read h w = (Return data, w) ->
        exists w',
          DataStoreIO.delete p w = (Return tt, w')
          /\ DataStoreIO.read h w' = (Return data, w')).
Proof.
  intros R. split.
  - intros p t h data St G Rd.
    eexists. split.
    { rewrite delete_eq, R, rmtree_eq, rmtree_ignore_Return. reflexivity. }
    rewrite (read_at _ _ _ G) in Rd. injection Rd as Rd.
    rewrite (read_at _ _ _ (get_pathname_from_url_with_fs _ _ _ _ G)).
    simpl fs; simpl cwd. f_equal.
    pose proof (read_gone (fs w) (cwd w) (root +:+ "/" +:+ p) t data
                  (join_nonempty _ _) St) as K.
    rewrite (append_assoc root ("/" +:+ p) ("/" +:+ t)) in K.
    exact (K Rd).
  - intros p q t h data Nr Sp Sq Npq St G Rd.
    eexists. split.
    { rewrite delete_eq, R, rmtree_eq, rmtree_ignore_Return. reflexivity. }
    rewrite (read_at _ _ _ G) in Rd. injection Rd as Rd.
    rewrite (read_at _ _ _ (get_pathname_from_url_with_fs _ _ _ _ G)).
    simpl fs; simpl cwd. f_equal.
    now apply read_kept.
Qed.

End Claims.

(** * The claims on the concrete setting *)

Ltac run := vm_compute; reflexivity.
Ltac run_fst := apply pair_fst_snd; vm_compute; reflexivity.

(** C1, as stated, fails for a prefix with a question mark: the object is
    written to [tmp/store/a?b/<token>], the URL handed out is
    [file:///a?b/<token>], and reading it back looks for [tmp/store/a]. *)
Lemma C1_counterexample :
  (forall data, @serialize demo_codec (VBytes demo_payload) = Return data ->
                @deserialize demo_codec data = Return (VBytes demo_payload))
  /\ fst (@DataStoreIO.serialize_write python_netloc demo_codec
            (VBytes demo_payload) (Some queried_prefix) demo_world)
     = Return (DataStoreIO.mk ("file:///a?b/" +:+ demo_token))
  /\ fst (@DataStoreIO.read_deserialize python_netloc demo_codec
            (DataStoreIO.mk ("file:///a?b/" +:+ demo_token))
            (Some (shape (VBytes demo_payload)))
            (snd (@DataStoreIO.serialize_write python_netloc demo_codec
                    (VBytes demo_payload) (Some queried_prefix) demo_world)))
     = Raise (OSError FileNotFoundError).
Proof.
  repeat apply conj.
  - intros data [= <-]. reflexivity.
  - run.
  - run.
Qed.

(** C1 on the scenario: a byte string written under the default prefix is
    read back as it was. *)
Lemma C1_witness :
  @DataStoreIO.read_deserialize python_netloc demo_codec demo_handle
    (Some (shape (VBytes demo_payload)))
    (snd (@DataStoreIO.serialize_write python_netloc demo_codec
            (VBytes demo_payload) None demo_world))
  = (Return (VBytes demo_payload),
     snd (@DataStoreIO.serialize_write python_netloc demo_codec
            (VBytes demo_payload) None demo_world)).
Proof.
  apply (@C1_round_trip python_netloc demo_codec (VBytes demo_payload) None
           demo_world demo_handle
           (snd (@DataStoreIO.serialize_write python_netloc demo_codec
                   (VBytes demo_payload) None demo_world))).
  - run.
  - intros data [= <-]. reflexivity.
  - run_fst.
  - reflexivity.
  - reflexivity.
  - reflexivity.
Defined.

(** C3 on the scenario: two writes of the same payload under the default
    prefix, with the UUIDs 1000 and 1001. *)
Lemma C3_witness :
  (uuid_seq demo_world (uuid_calls demo_world)
   <> uuid_seq demo_world (S (uuid_calls demo_world)) ->
   DataStoreIO.url demo_handle
   <> DataStoreIO.url (DataStoreIO.mk ("file:///runs/" +:+ demo_token')))
  /\ (uuid_seq demo_world (uuid_calls demo_world)
      = uuid_seq demo_world (S (uuid_calls demo_world)) ->
      DataStoreIO.url demo_handle
      = DataStoreIO.url (DataStoreIO.mk ("file:///runs/" +:+ demo_token'))).
Proof.
  apply (@C3_uniqueness python_netloc demo_payload None demo_world
           demo_handle demo_world1
           (DataStoreIO.mk ("file:///runs/" +:+ demo_token'))
           (snd (@DataStoreIO.write python_netloc demo_payload None demo_world1))).
  - run_fst.
  - run_fst.
  - run.
  - run.
Defined.

(** C4 on the scenario: the first write under the default prefix. *)
Lemma C4_witness :
  exists root,
    @DataStoreIO.get_filepath python_netloc (datastore_url (opts demo_world))
    = Return root
    /\ fst (@DataStoreIO.get_next_pathname_url python_netloc None demo_world)
       = Return (root +:+ "/" +:+ "runs" +:+ "/" +:+ UUID.hex 1000,
                 "file:///" +:+ "runs" +:+ "/" +:+ UUID.hex 1000)
    /\ Fs.read_file (fs demo_world1) (cwd demo_world1)
         (root +:+ "/" +:+ "runs" +:+ "/" +:+ UUID.hex 1000)
       = Return demo_payload
    /\ DataStoreIO.url demo_handle = "file:///" +:+ "runs" +:+ "/" +:+ UUID.hex 1000
    /\ String.length (UUID.hex 1000) = 32
    /\ Str.all UUID.is_hex_char (UUID.hex 1000) = true.
Proof.
  apply (@C4_url_pathname_form python_netloc demo_payload None demo_world
           demo_handle demo_world1).
  run_fst.
Defined.

(** C5 on the scenario: the handle of the first write, after it. *)
Lemma C5_witness :
  @DataStoreIO.read python_netloc demo_handle demo_world1
  = (Fs.read_file (fs demo_world1) (cwd demo_world1)
       ("tmp/store/runs/" +:+ demo_token), demo_world1)
  /\ (Fs.stat (fs demo_world1) (cwd demo_world1) ("tmp/store/runs/" +:+ demo_token)
      = Raise (OSError FileNotFoundError) ->
      @DataStoreIO.read python_netloc demo_handle demo_world1
      = (Raise (OSError FileNotFoundError), demo_world1))
  /\ (forall data,
        Fs.stat (fs demo_world1) (cwd demo_world1) ("tmp/store/runs/" +:+ demo_token)
        = Return (Fs.File data) ->
        @DataStoreIO.read python_netloc demo_handle demo_world1
        = (Return data, demo_world1)).
Proof.
  apply (@C5_read_failure python_netloc demo_handle demo_world1).
  apply get_pathname_from_url_fst. run.
Defined.

(** C6 on the scenario: a stored sequence, read back as a mapping. *)
Lemma C6_witness :
  @DataStoreIO.read_deserialize python_netloc demo_codec demo_handle (Some dict_)
    demo_world_seq
  = (Raise TypeMismatch, demo_world_seq)
  /\ @DataStore.from_url python_netloc demo_codec (DataStoreIO.url demo_handle)
       demo_world_seq
     = (Raise TypeMismatch, demo_world_seq).
Proof.
  apply (@C6_type_check python_netloc demo_codec demo_handle demo_world_seq
           [x03; x01; x00] demo_sequence).
  - apply read_fst. run.
  - reflexivity.
  - discriminate.
Defined.

(** C7 on the scenario: [delete "runs"] before anything was written. *)
Lemma C7_witness :
  (Fs.isdir (fs demo_world) (cwd demo_world) ("tmp/store" +:+ "/" +:+ "runs") = false ->
   @DataStoreIO.delete python_netloc "runs" demo_world = (Return tt, demo_world))
  /\ exists w1,
       @DataStoreIO.delete python_netloc "runs" demo_world = (Return tt, w1)
       /\ @DataStoreIO.delete python_netloc "runs" w1 = (Return tt, w1).
Proof.
  apply (@C7_idempotent_delete python_netloc "runs" demo_world "tmp/store").
  run.
Defined.

(** C8 on the scenario: one object under ["runs"], one under ["other"],
    then [delete "runs"]. *)
Lemma C8_witness :
  (exists w',
      @DataStoreIO.delete python_netloc "runs" demo_world2 = (Return tt, w')
      /\ @DataStoreIO.read python_netloc demo_handle w'
         = (Raise (OSError FileNotFoundError), w'))
  /\ (exists w',
        @DataStoreIO.delete python_netloc "runs" demo_world2 = (Return tt, w')
        /\ @DataStoreIO.read python_netloc demo_handle' w'
           = (Return demo_payload, w')).
Proof.
  assert (@DataStoreIO.get_filepath python_netloc (datastore_url (opts demo_world2))
          = Return "tmp/store") as R by run.
  destruct (@C8_deletion_scope python_netloc "tmp/store" demo_world2 R) as [Gone Kept].
  split.
  - apply (Gone "runs" demo_token demo_handle demo_payload).
    + run.
    + apply get_pathname_from_url_fst. run.
    + apply read_fst. run.
  - apply (Kept "runs" "other" demo_token' demo_handle' demo_payload).
    + run.
    + run.
    + run.
    + discriminate.
    + run.
    + apply get_pathname_from_url_fst. run.
    + apply read_fst. run.
Defined.

(** C9, as stated, fails when [Root/prefix] is a regular file: [rmtree]
    raises [NotADirectoryError], which is not the missing-target condition,
    and [delete] returns normally all the same. *)
Lemma C9_counterexample :
  rmtree "tmp/store/f" false demo_world_file
  = (Raise (OSError NotADirectoryError), demo_world_file)
  /\ @DataStoreIO.delete python_netloc "f" demo_world_file
     = (Return tt, demo_world_file).
Proof.
  split.
  - rewrite rmtree_not_dir_state by run.
    apply (f_equal (fun r => (r, demo_world_file))). run.
  - apply (@delete_not_dir python_netloc "f" demo_world_file "tmp/store"); run.
Qed.

(** C10, as stated, fails for a prefix with a tab in it: the prefix and the
    token have no ["?"] and no ["#"], the token has no separator, and
    [urlparse] drops the tab. *)
Lemma C10_counterexample :
  Str.contains "/" "c" = false
  /\ Str.contains "?" (tabbed_prefix +:+ "c") = false
  /\ Str.contains "#" (tabbed_prefix +:+ "c") = false
  /\ @DataStoreIO.get_filepath python_netloc
       ("file:///" +:+ tabbed_prefix +:+ "/" +:+ "c")
     = Return "ab/c"
  /\ "ab/c" <> tabbed_prefix +:+ "/" +:+ "c".
Proof. repeat apply conj; try run. vm_compute. discriminate. Qed.

(** C10 on the scenario: the default prefix and the first token. *)
Lemma C10_witness :
  @DataStoreIO.get_filepath python_netloc ("file:///" +:+ "runs" +:+ "/" +:+ demo_token)
  = Return ("runs" +:+ "/" +:+ demo_token)
  /\ @DataStoreIO.get_pathname_from_url python_netloc
       ("file:///runs/" +:+ demo_token)
       (snd (@DataStoreIO.get_next_pathname_url python_netloc None demo_world))
     = (Return ("tmp/store/runs/" +:+ demo_token),
        snd (@DataStoreIO.get_next_pathname_url python_netloc None demo_world)).
Proof.
  destruct (@C10_resolver_inverts_constructor python_netloc) as [Inv Next].
  split.
  - apply Inv; run.
  - apply (Next None demo_world); [run | run_fst].
Defined.

(** * Further properties of the store *)

Section StoreMore.

Context `{NetlocCheck}.

Lemma write_eq data prefix w :
  DataStoreIO.write data prefix w =
  match DataStoreIO.get_next_pathname_url prefix w with
  | (Raise e, w1) => (Raise e, w1)
  | (Return (pathname, url), w1) =>
      match Fs.write_file (fs w1) (cwd w1) pathname data with
      | (Raise e, fs2) => (Raise e, with_fs w1 fs2)
      | (Return _, fs2) => (Return (DataStoreIO.mk url), with_fs w1 fs2)
      end
  end.
Proof.
  unfold DataStoreIO.write, bind.
  destruct (DataStoreIO.get_next_pathname_url prefix w) as [[[pn u]|e] w1];
    [|reflexivity].
  unfold open_wb_write, ret.
  destruct (Fs.write_file _ _ _ _) as [[[]|] fs2]; reflexivity.
Qed.

(** *** What a write leaves alone *)







(** *** Bookkeeping *)

Lemma rmtree_world pathname ignore w :
  snd (rmtree pathname ignore w)
  = with_fs w (snd (Fs.rmtree (fs w) (cwd w) pathname ignore)).
Proof. now rewrite rmtree_eq. Qed.

(** X2. No call of the store changes the configuration, the current directory
    or the sequence of UUIDs; [read] and [delete] leave the generator where
    it is, and [write] takes one UUID when it returns and at most one when
    it raises. *)
Theorem store_bookkeeping data prefix p h w :
  (let w' := snd (DataStoreIO.write data prefix w) in
   opts w' = opts w /\ cwd w' = cwd w /\ uuid_seq w' = uuid_seq w
   /\ (uuid_calls w' = uuid_calls w \/ uuid_calls w' = S (uuid_calls w))
   /\ (forall h0, fst (DataStoreIO.write data prefix w) = Return h0 ->
       uuid_calls w' = S (uuid_calls w)))
  /\ (let w' := snd (DataStoreIO.delete p w) in
      opts w' = opts w /\ cwd w' = cwd w /\ uuid_seq w' = uuid_seq w
      /\ uuid_calls w' = uuid_calls w)
  /\ snd (DataStoreIO.read h w) = w.
Proof.
  repeat apply conj; cbv zeta.
  1-5: rewrite write_eq, get_next_pathname_url_eq; cbv zeta;
    destruct (DataStoreIO.get_filepath (datastore_url (opts w))); simpl; auto;
    try discriminate;
    destruct (Fs.makedirs _ _ _) as [[[]|] fs1]; simpl; auto; try discriminate;
    destruct (Fs.write_file _ _ _ _) as [[[]|] fs2]; simpl; auto.
  1-4: rewrite delete_eq;
    destruct (DataStoreIO.get_filepath (datastore_url (opts w))); simpl; auto;
    rewrite rmtree_world; reflexivity.
  apply read_state.
Qed.

(** *** Errors before effects *)

(** X3. With a root URL that does not resolve, every call of the store raises
    what resolving it raises, before it touches anything: no directory is
    made, no UUID is taken. *)
Theorem unresolved_root w e :
  DataStoreIO.get_filepath (datastore_url (opts w)) = Raise e ->
  (forall data prefix, DataStoreIO.write data prefix w = (Raise e, w))
  /\ (forall p, DataStoreIO.delete p w = (Raise e, w))
  /\ (forall h, DataStoreIO.read h w = (Raise e, w)).
Proof.
  intros R. repeat apply conj.
  - intros data prefix. rewrite write_eq, get_next_pathname_url_eq. cbv zeta.
    now rewrite R.
  - intros p. now rewrite delete_eq, R.
  - intros h. rewrite read_eq, get_pathname_from_url_eq. simpl. now rewrite R.
Qed.

End StoreMore.

Section StoreMore2.

Context `{NetlocCheck}.

(** *** The resolver on [file:///] URLs *)

Lemma contains_partition_fst c d s :
  Str.contains d (fst (Str.partition c s)) = true -> Str.contains d s = true.
Proof.
  induction s as [|a s IH]; simpl; [auto|].
  destruct (Ascii.eqb a c); simpl; [discriminate|].
  destruct (Str.partition c s) as [h t]; simpl in *.
  destruct (Ascii.eqb a d); auto.
Qed.

Lemma contains_partition_self c s : Str.contains c (fst (Str.partition c s)) = false.
Proof.
  induction s as [|a s IH]; simpl; [reflexivity|].
  destruct (Ascii.eqb a c) eqn:E; simpl; [reflexivity|].
  destruct (Str.partition c s) as [h t]; simpl in *. now rewrite E.
Qed.

Lemma contains_cut c d s : Str.contains d s = false -> Str.contains d (cut c s) = false.
Proof.
  intros N. unfold cut. destruct (Str.contains c s); [|assumption].
  destruct (Str.contains d (fst (Str.partition c s))) eqn:E; [|reflexivity].
  apply contains_partition_fst in E. congruence.
Qed.

Lemma contains_cut_self c s : Str.contains c (cut c s) = false.
Proof.
  unfold cut. destruct (Str.contains c s) eqn:E; [|assumption].
  apply contains_partition_self.
Qed.

Lemma contains_remove c d s :
  Str.contains d (Str.remove c s) = true -> Str.contains d s = true.
Proof.
  induction s as [|a s IH]; simpl; [auto|].
  destruct (Ascii.eqb a c); simpl; destruct (Ascii.eqb a d); auto.
Qed.

Lemma contains_remove_self c s : Str.contains c (Str.remove c s) = false.
Proof.
  induction s as [|a s IH]; simpl; [reflexivity|].
  destruct (Ascii.eqb a c) eqn:E; simpl; [assumption|]. now rewrite E.
Qed.

Lemma file_path_url_safe rest : url_safe (file_path rest) = true.
Proof.
  unfold file_path. apply url_safe_intro.
  - apply contains_cut_self.
  - apply contains_cut, contains_cut_self.
  - do 2 apply contains_cut. unfold Url.remove_unsafe; simpl.
    destruct (Str.contains "009" _) eqn:E; [|reflexivity].
    do 2 apply contains_remove in E. now rewrite contains_remove_self in E.
  - do 2 apply contains_cut. unfold Url.remove_unsafe; simpl.
    destruct (Str.contains "013" _) eqn:E; [|reflexivity].
    apply contains_remove in E. now rewrite contains_remove_self in E.
  - do 2 apply contains_cut. unfold Url.remove_unsafe; simpl.
    apply contains_remove_self.
Qed.

(** X4. [get_filepath] returns on exactly the URLs that literally start with
    [file:///], whatever follows; it returns what follows without its tabs,
    carriage returns and line feeds, up to the first ["#"] or ["?"]; so the
    path it returns has none of these five characters, and resolving the
    URL made of it gives it back. *)
Theorem get_filepath_file_urls :
  (forall rest,
      DataStoreIO.get_filepath ("file:///" +:+ rest)
      = Return (cut "?" (cut "#" (Url.remove_unsafe rest))))
  /\ (forall u, Str.startswith "file:///" u = false ->
                exists e, DataStoreIO.get_filepath u = Raise e)
  /\ (forall u p, DataStoreIO.get_filepath u = Return p ->
                  url_safe p = true
                  /\ DataStoreIO.get_filepath ("file:///" +:+ p) = Return p).
Proof.
  repeat apply conj.
  - apply get_filepath_file.
  - intros u S. destruct (DataStoreIO.get_filepath u) as [p|e] eqn:E; [|eauto].
    apply get_filepath_Return in E as [E _]. congruence.
  - intros u p E. apply get_filepath_Return in E as [_ ->].
    split; [apply file_path_url_safe|].
    rewrite get_filepath_file. f_equal.
    apply file_path_safe, file_path_url_safe.
Qed.

(** *** What a write can fail with *)







End StoreMore2.

Section StoreMore3.

Context `{NetlocCheck}.

(** *** Deleting with the empty prefix *)

(** Whatever is inside a directory that is removed is gone. *)
Lemma read_gone_under fs0 cwd0 target pathname D P :
  Fs.resolve fs0 cwd0 target = Return D -> fs0 !! D = Some Fs.Dir ->
  Fs.resolve fs0 cwd0 pathname = Return P ->
  D `prefix_of` P -> P <> [] ->
  Fs.read_file (snd (Fs.rmtree fs0 cwd0 target true)) cwd0 pathname
  = Raise (OSError FileNotFoundError).
Proof.
  intros RD DD RP In NE. unfold Fs.rmtree. rewrite RD, DD. simpl snd.
  unfold Fs.read_file. unfold Fs.resolve in *.
  destruct (pathname =? "")%string; [discriminate|].
  destruct (walk_remove_subtree D _ _ _ _ RP) as [-> | ->]; [|reflexivity].
  now rewrite remove_subtree_inside.
Qed.

Lemma read_Return_at h w pathname data :
  DataStoreIO.get_pathname_from_url (DataStoreIO.url h) w = (Return pathname, w) ->
  DataStoreIO.read h w = (Return data, w) ->
  Fs.read_file (fs w) (cwd w) pathname = Return data.
Proof. intros G R. rewrite (read_at _ _ _ G) in R. now injection R. Qed.

(** X6. [delete("")] removes the root of the store with everything in it, the
    prefix being joined to the root as it is: an object under any prefix
    that is a name, readable before, is not found afterwards. *)
Theorem delete_empty_prefix root w p t h data :
  DataStoreIO.get_filepath (datastore_url (opts w)) = Return root ->
  Fs.simple_name p = true -> Fs.simple_name t = true ->
  DataStoreIO.get_pathname_from_url (DataStoreIO.url h) w
  = (Return (root +:+ "/" +:+ p +:+ "/" +:+ t), w) ->
  DataStoreIO.read h w = (Return data, w) ->
  exists w',
    DataStoreIO.delete "" w = (Return tt, w')
    /\ DataStoreIO.read h w' = (Raise (OSError FileNotFoundError), w').
Proof.
  intros R Sp St G Rd. eexists. split.
  { rewrite delete_eq, R, rmtree_eq, rmtree_ignore_Return. reflexivity. }
  apply (read_Return_at _ _ _ _ G) in Rd.
  rewrite (read_at _ _ _ (get_pathname_from_url_with_fs _ _ _ _ G)).
  unfold with_fs at 1 2. cbn [fs cwd]. f_equal.
  unfold Fs.read_file in Rd.
  destruct (Fs.resolve (fs w) (cwd w) (root +:+ "/" +:+ p +:+ "/" +:+ t))
    as [P|] eqn:RP; [|discriminate].
  pose proof RP as RP'.
  rewrite resolve_walk in RP' by apply join_nonempty.
  rewrite (origin_root _ _ _ "") in RP'.
  change ("/" +:+ p +:+ "/" +:+ t) with (String "/" (p +:+ String "/" t)) in RP'.
  rewrite !split_append, (simple_name_split _ Sp), (simple_name_split _ St),
    walk_app in RP'.
  destruct (Fs.walk (fs w) (Fs.origin (cwd w) (root +:+ "/" +:+ ""))
              (Str.split "/" root)) as [D|] eqn:WD; [|discriminate].
  simpl in RP'.
  destruct (fs w !! D) as [[|]|] eqn:ED; try discriminate.
  rewrite (step_simple _ _ Sp) in RP'.
  destruct (fs w !! (D ++ [p])%list) as [[|]|]; try discriminate.
  rewrite (step_simple _ _ St) in RP'. injection RP' as <-.
  apply (read_gone_under _ _ _ _ D ((D ++ [p]) ++ [t])%list); auto.
  - assert (Str.split "/" (root +:+ "/" +:+ "")
            = (Str.split "/" root ++ [EmptyString])%list) as SX
      by apply (split_append "/" root "").
    rewrite resolve_walk, SX, walk_app, WD by apply join_nonempty.
    simpl. now rewrite ED.
  - rewrite <- app_assoc. now apply prefix_app_r.
  - now destruct D.
Qed.

(** *** Pickling a handle *)

(** X7. The state [__getstate__] gives is the one [__setstate__] needs: set on
    any instance, it makes the instance the handle it was taken from. *)
Theorem getstate_setstate (self other : DataStoreIO.t) :
  exists state,
    DataStoreIO.__getstate__ self = Done state
    /\ state = [("url", DataStoreIO.url self)]
    /\ DataStoreIO.__setstate__ other state = (Done tt, self).
Proof.
  eexists. repeat apply conj; try reflexivity. now destruct self.
Qed.




End StoreMore3.

Section StoreMore4.

Context `{NetlocCheck} `{Codec}.

(** What [serialize_write] wrote is what [read_deserialize] reads. *)
Lemma serialize_write_read_back v prefix w h w1 :
  url_safe (default_if_null prefix (datastore_relative_path_prefix (opts w)))
  = true ->
  (forall data, serialize v = Return data -> deserialize data = Return v) ->
  DataStoreIO.serialize_write v prefix w = (Return h, w1) ->
  DataStoreIO.read_deserialize h (Some (shape v)) w1 = (Return v, w1).
Proof.
  intros Safe RT W.
  unfold DataStoreIO.serialize_write, bind, lift in W.
  destruct (serialize v) as [data|] eqn:Ser; [|discriminate].
  specialize (RT _ eq_refl).
  destruct (write_Return _ _ _ _ _ W) as (root & fs1 & fs2 & R & M & G & F & -> & ->).
  pose proof (get_pathname_from_url_next _ _ _ _ _ Safe G) as K.
  rewrite read_deserialize_eq, read_eq. simpl DataStoreIO.url.
  rewrite (get_pathname_from_url_config _
             (mkWorld fs1 (cwd w) (opts w) (uuid_seq w) (S (uuid_calls w))))
    by reflexivity.
  rewrite K. simpl.
  rewrite (read_after_write _ _ _ _ _ F), RT.
  unfold validate_type. now rewrite bool_decide_eq_true_2.
Qed.

(** X9. A mapping stored with [to_url] is the mapping [from_url] loads from the
    URL, when the default prefix has no ["?"], ["#"], tab, carriage return
    or line feed and the codec round-trips the mapping. *)
Theorem to_url_from_url self w url w1 :
  url_safe (datastore_relative_path_prefix (opts w)) = true ->
  (forall data, serialize (DataStore.to_dict self) = Return data ->
                deserialize data = Return (DataStore.to_dict self)) ->
  DataStore.to_url self w = (Return url, w1) ->
  DataStore.from_url url w1 = (Return self, w1).
Proof.
  intros Safe RT U. unfold DataStore.to_url, bind, ret in U.
  destruct (DataStoreIO.serialize_write _ _ _) as [[h|e] w0] eqn:W;
    [|discriminate].
  injection U as <- <-.
  pose proof (serialize_write_read_back _ None _ _ _ Safe RT W) as RB.
  unfold DataStore.from_url, bind. destruct h as [u]. simpl DataStoreIO.url.
  change (shape (DataStore.to_dict self)) with dict_ in RB. rewrite RB.
  unfold lift. now destruct self.
Qed.

End StoreMore4.

(** * [init_sequences] *)

Section InitSequencesFacts.

Context {Field : Type} (Sequence : Field).

Abbreviation step := (InitSequences.step_init_sequences Sequence).

Lemma fold_insert_lookup (names : list string) (fields : gmap string Field) k :
  fold_left (fun fields name => <[name := Sequence]> fields) names fields !! k
  = if bool_decide (k ∈ names) then Some Sequence else fields !! k.
Proof.
  revert fields; induction names as [|n names IH]; intros fields;
    cbn [fold_left].
  - rewrite bool_decide_eq_false_2; [reflexivity | apply not_elem_of_nil].
  - rewrite IH. destruct (decide (k ∈ names)) as [I|I].
    + rewrite !bool_decide_eq_true_2; [reflexivity | now right | assumption].
    + rewrite (bool_decide_eq_false_2 _ I).
      destruct (decide (k = n)) as [->|N].
      * rewrite bool_decide_eq_true_2 by left. apply lookup_insert_eq.
      * rewrite bool_decide_eq_false_2.
        -- now apply lookup_insert_ne.
        -- intros [E|E]%elem_of_cons; contradiction.
Qed.

(** X10. After the step every name given holds [Sequence()], whatever it held,
    and every other field is what it was. A [str] is one name, not its
    characters, and [None] names nothing. *)
Theorem step_init_sequences_fields (fields : gmap string Field) :
  (forall names k,
      step fields (InitSequences.Names names) !! k
      = if bool_decide (k ∈ names) then Some Sequence else fields !! k)
  /\ (forall name k,
        step fields (InitSequences.OneName name) !! k
        = if bool_decide (k = name) then Some Sequence else fields !! k)
  /\ step fields InitSequences.NoNames = fields.
Proof.
  repeat apply conj.
  - intros names k. apply fold_insert_lookup.
  - intros name k. unfold InitSequences.step_init_sequences.
    rewrite fold_insert_lookup.
    destruct (decide (k = name)) as [->|N].
    + rewrite !bool_decide_eq_true_2; [reflexivity.. | left].
    + rewrite !bool_decide_eq_false_2; [reflexivity | assumption |].
      now intros [E|E%elem_of_nil]%elem_of_cons.
  - reflexivity.
Qed.

(** X11. The step depends on the names given as a set: two lists with the same
    names give the same fields, so running the step again changes nothing,
    and two steps in a row are the step for both lists of names. *)
Theorem step_init_sequences_compose (fields : gmap string Field) names1 names2 :
  ((forall k, k ∈ names1 <-> k ∈ names2) ->
   step fields (InitSequences.Names names1) = step fields (InitSequences.Names names2))
  /\ step (step fields (InitSequences.Names names1)) (InitSequences.Names names1)
     = step fields (InitSequences.Names names1)
  /\ step (step fields (InitSequences.Names names1)) (InitSequences.Names names2)
     = step fields (InitSequences.Names (names1 ++ names2)).
Proof.
  repeat apply conj.
  - intros S. apply map_eq. intros k.
    unfold InitSequences.step_init_sequences. rewrite !fold_insert_lookup.
    destruct (decide (k ∈ names1)) as [I|I].
    + rewrite !bool_decide_eq_true_2; [reflexivity | now apply S | assumption].
    + rewrite !bool_decide_eq_false_2; [reflexivity | now rewrite <- S | assumption].
  - apply map_eq. intros k.
    unfold InitSequences.step_init_sequences. rewrite !fold_insert_lookup.
    now destruct (bool_decide (k ∈ names1)).
  - unfold InitSequences.step_init_sequences. now rewrite fold_left_app.
Qed.

End InitSequencesFacts.

(** * [chdir] and the directory contexts *)

Section ChdirFacts.

Lemma append_nil_r s : s +:+ "" = s.
Proof. induction s as [|a s IH]; simpl; [reflexivity | now rewrite IH]. Qed.

Lemma split_slash s : Str.split "/" (String "/" s) = EmptyString :: Str.split "/" s.
Proof. reflexivity. Qed.

Lemma split_joined names :
  Forall (fun n => Fs.simple_name n = true) names -> names <> [] ->
  Str.split "/" (Fs.joined names) = EmptyString :: names.
Proof.
  induction 1 as [|n names Sn F IH]; [congruence|]. intros _.
  simpl Fs.joined. change ("/" +:+ n +:+ Fs.joined names)
    with (String "/" (n +:+ Fs.joined names)).
  rewrite split_slash. f_equal.
  destruct names as [|m names].
  - simpl. rewrite append_nil_r. now apply simple_name_split.
  - specialize (IH ltac:(discriminate)).
    simpl Fs.joined in *.
    change ("/" +:+ m +:+ Fs.joined names)
      with (String "/" (m +:+ Fs.joined names)) in *.
    rewrite split_slash in IH. injection IH as IH.
    now rewrite split_append, IH, (simple_name_split _ Sn).
Qed.

Lemma walk_names_chain fs0 cur names :
  Forall (fun n => Fs.simple_name n = true) names ->
  (forall q, q `prefix_of` names -> q <> names -> fs0 !! (cur ++ q)%list = Some Fs.Dir) ->
  Fs.walk fs0 cur names = Return (cur ++ names)%list.
Proof.
  intros F. revert cur. induction F as [|n names Sn F IH]; intros cur D; simpl.
  - now rewrite app_nil_r.
  - pose proof (D [] (prefix_nil _) ltac:(discriminate)) as D0.
    rewrite app_nil_r in D0. rewrite D0, (step_simple _ _ Sn), IH.
    + now rewrite <- app_assoc.
    + intros q Pq Nq. rewrite <- app_assoc. apply D.
      * now apply prefix_cons.
      * intros E. apply Nq. now injection E.
Qed.

(** The pathname of a directory that is there with the directories above
    it leads to it, from anywhere. *)
Lemma resolve_pathname_of fs0 cwd0 P :
  Forall (fun n => Fs.simple_name n = true) P ->
  Fs.dir_chain fs0 P ->
  Fs.resolve fs0 cwd0 (Fs.pathname_of P) = Return P.
Proof.
  intros F D. pose proof (D [] (prefix_nil _)) as D0. destruct P as [|n P].
  - unfold Fs.pathname_of. rewrite resolve_walk by discriminate.
    change (Fs.origin cwd0 "/") with (@nil string).
    change (Str.split "/" "/") with [EmptyString; EmptyString].
    cbn [Fs.walk]. rewrite D0. change (Fs.step [] "") with (@nil string).
    now rewrite D0.
  - unfold Fs.pathname_of.
    assert (Fs.joined (n :: P) <> "") as NE by (simpl; discriminate).
    rewrite resolve_walk by assumption.
    rewrite split_joined by (auto; discriminate).
    assert (Fs.origin cwd0 (Fs.joined (n :: P)) = []) as -> by reflexivity.
    cbn [Fs.walk]. rewrite D0.
    change (Fs.step [] "") with (@nil string).
    apply (walk_names_chain fs0 [] (n :: P) F).
    intros q Pq _. now apply D.
Qed.

Lemma pathname_of_nonempty P : (Fs.pathname_of P =? "")%string = false.
Proof. now destruct P. Qed.

Lemma os_chdir_pathname_of w P :
  Forall (fun n => Fs.simple_name n = true) P ->
  Fs.dir_chain (fs w) P ->
  os_chdir (Fs.pathname_of P) w = (Return tt, with_cwd w P).
Proof.
  intros F D. unfold os_chdir.
  rewrite (resolve_pathname_of _ _ _ F D).
  now rewrite (D P (reflexivity _)).
Qed.

Lemma os_getcwd_chain w :
  Fs.dir_chain (fs w) (cwd w) ->
  os_getcwd w = (Return (Fs.pathname_of (cwd w)), w).
Proof. intros D. unfold os_getcwd. now rewrite (D _ (reflexivity _)). Qed.

(** X12. [chdir()] without a path, or with the empty one, remembers the
    directory it is called in: the step it returns goes back to that
    directory from wherever it is run, provided the directory is still
    there with the directories above it. *)
Theorem chdir_remembers {Run : Type} (path : option string) w step w1 :
  path = None \/ path = Some "" ->
  Forall (fun n => Fs.simple_name n = true) (cwd w) ->
  @Chdir.chdir Run path w = (Return step, w1) ->
  w1 = w
  /\ forall (run : Run) w2,
       Fs.dir_chain (fs w2) (cwd w) ->
       step run w2 = (Return tt, with_cwd w2 (cwd w)).
Proof.
  intros Hp F C.
  assert (@Chdir.chdir Run path w
          = bind os_getcwd (fun p => ret (fun run => Chdir.step_chdir run (Some p))) w)
    as E by (destruct Hp as [-> | ->]; reflexivity).
  rewrite E in C. unfold bind, os_getcwd, ret in C.
  destruct (fs w !! cwd w) as [[|]|]; try discriminate.
  injection C as <- <-. split; [reflexivity|].
  intros run w2 D. unfold Chdir.step_chdir.
  rewrite pathname_of_nonempty. now apply os_chdir_pathname_of.
Qed.

Context `{Joblib}.

(** X13. [chdir_ctx] puts the current directory back on the way out, whether
    the entry and the body returned or raised, when that directory is still
    there with the directories above it; the outcome is the one of the
    entry and the body, and the rest of the state is as they left it. *)
Theorem chdir_ctx_restores {A} dirname (body : string -> Py A) w r w1 :
  Forall (fun n => Fs.simple_name n = true) (cwd w) ->
  Fs.dir_chain (fs w) (cwd w) ->
  (os_chdir dirname ;;; shutdown_reusable_executor ;;; body dirname) w = (r, w1) ->
  Fs.dir_chain (fs w1) (cwd w) ->
  FsUtils.chdir_ctx dirname body w = (of_outcome r, with_cwd w1 (cwd w)).
Proof.
  intros F D0 B D1. unfold FsUtils.chdir_ctx.
  rewrite (os_getcwd_chain _ D0), B.
  now rewrite (os_chdir_pathname_of _ _ F D1).
Qed.

End ChdirFacts.

Section TmpdirFacts.

Context `{Tempfile}.

(** X14. [tmpdir_ctx] leaves no trace. Let [mkdtemp] make the new, empty
    directory [T] and return a pathname [tmp] of it; let the body change
    the tree inside [T] only and leave [T] in place. Then, whether the body
    returns or raises, the context ends with its outcome, the tree and the
    current directory being what they were before the context. *)
Theorem tmpdir_ctx_leaves_no_trace {A} (body : string -> Py A) w tmp w1 T r w2 :
  Forall (fun n => Fs.simple_name n = true) (cwd w) ->
  Fs.dir_chain (fs w) (cwd w) ->
  mkdtemp w = (Return tmp, w1) ->
  (forall k, T `prefix_of` k -> fs w !! k = None) ->
  fs w1 = <[T := Fs.Dir]> (fs w) -> cwd w1 = cwd w ->
  Fs.resolve (fs w1) (cwd w1) tmp = Return T ->
  body tmp (with_cwd w1 T) = (r, w2) ->
  (forall k, ~ T `prefix_of` k -> fs w2 !! k = fs w1 !! k) ->
  fs w2 !! T = Some Fs.Dir ->
  Fs.resolve (fs w2) (cwd w) tmp = Return T ->
  exists w3,
    FsUtils.tmpdir_ctx body w = (of_outcome r, w3)
    /\ fs w3 = fs w /\ cwd w3 = cwd w
    /\ opts w3 = opts w2 /\ uuid_seq w3 = uuid_seq w2
    /\ uuid_calls w3 = uuid_calls w2.
Proof.
  intros F D0 Mk Fresh Made Cw In Body Confined Still Out.
  assert (T <> []) as TN.
  { intros ->. rewrite (Fresh [] (reflexivity _)) in D0 || idtac.
    pose proof (D0 [] (prefix_nil _)) as D. rewrite (Fresh [] (reflexivity _)) in D.
    discriminate. }
  assert (forall q, fs w !! q = Some Fs.Dir -> ~ T `prefix_of` q) as Outside.
  { intros q Eq Pq. rewrite (Fresh _ Pq) in Eq. discriminate. }
  assert (Fs.dir_chain (fs w2) (cwd w)) as D2.
  { intros q Pq. pose proof (D0 q Pq) as Eq.
    rewrite (Confined q (Outside _ Eq)), Made, lookup_insert_ne; [assumption|].
    intros <-. now apply (Outside T Eq). }
  unfold FsUtils.tmpdir_ctx.
  rewrite (os_getcwd_chain _ D0), Mk.
  unfold bind at 1. unfold os_chdir at 1. rewrite In, Made, lookup_insert_eq, Body.
  rewrite (os_chdir_pathname_of _ _ F D2).
  rewrite rmtree_eq. unfold Fs.rmtree. cbn [fs cwd with_cwd].
  rewrite Out, Still, (bool_decide_eq_false_2 _ TN). cbn [fst snd].
  eexists. split; [reflexivity|]. cbn [fs cwd opts uuid_seq uuid_calls with_fs with_cwd].
  repeat apply conj; try reflexivity.
  apply map_eq. intros k. destruct (decide (T `prefix_of` k)) as [Pk|Pk].
  - rewrite remove_subtree_inside, (Fresh _ Pk); [reflexivity | assumption |].
    intros ->. apply TN. now apply prefix_nil_inv.
  - rewrite remove_subtree_outside by now left.
    rewrite (Confined _ Pk), Made, lookup_insert_ne; [reflexivity|].
    intros <-. now apply Pk.
Qed.

End TmpdirFacts.

Section GlobsFacts.

Context `{Pathlib} `{Fnmatch}.

Lemma chars_length text name :
  name ∈ FsUtils.chars text -> String.length name = 1.
Proof.
  induction text as [|c text IH]; simpl.
  - now intros ?%elem_of_nil.
  - intros [->|I]%elem_of_cons; [reflexivity | auto].
Qed.

Lemma candidates_length src_dir include found name :
  FsUtils.candidates src_dir include = Return found ->
  name ∈ found -> String.length name = 1.
Proof.
  revert found; induction include as [|pattern include IH]; intros found; simpl.
  - intros [= <-] ?%elem_of_nil. contradiction.
  - destruct (rglob_str src_dir pattern) as [text|]; [|discriminate].
    destruct (FsUtils.candidates src_dir include) as [more|]; [|discriminate].
    intros [= <-] [I|I]%elem_of_app; [eapply chars_length | eapply IH]; eauto.
Qed.

(** X15. [globs] lists characters, not files: it turns what [rglob] returns
    into text and the text into its characters. Every name it returns is
    one character long, names a regular file right inside [src_dir] and
    matches none of the [exclude] patterns; [src_dir] is a directory and
    the state is not changed. *)
Theorem globs_single_characters src_dir include exclude w matches w' name :
  FsUtils.globs src_dir include exclude w = (Return matches, w') ->
  name ∈ matches ->
  w' = w
  /\ Fs.isdir (fs w) (cwd w) src_dir = true
  /\ String.length name = 1
  /\ Fs.isfile (fs w) (cwd w) (src_dir +:+ "/" +:+ name) = true
  /\ forall pattern,
       pattern ∈ match exclude with
                 | Some p => FsUtils.patterns p
                 | None => []
                 end ->
       fnmatch name pattern = false.
Proof.
  unfold FsUtils.globs.
  destruct (Fs.isdir (fs w) (cwd w) src_dir) eqn:Dir; [|discriminate].
  cbn [negb]. cbv zeta.
  destruct (FsUtils.candidates src_dir (FsUtils.patterns include)) as [found|] eqn:C;
    [|discriminate].
  intros [= <- <-] [I N]%elem_of_difference.
  apply elem_of_list_to_set in I.
  repeat apply conj; try reflexivity.
  - eapply candidates_length; eassumption.
  - destruct (Fs.isfile _ _ _) eqn:E; [reflexivity|]. exfalso. apply N.
    apply elem_of_filter. split; [|now apply elem_of_list_to_set].
    cbv beta. unfold os_sep.
    change (src_dir +:+ "/" +:+ name) with (src_dir +:+ String "/" name) in E.
    now rewrite E.
  - intros pattern Ip. destruct (fnmatch name pattern) eqn:E; [|reflexivity].
    exfalso. apply N. apply elem_of_filter. split; [|now apply elem_of_list_to_set].
    cbv beta. destruct (Fs.isfile _ _ _); [|reflexivity].
    apply existsb_exists. exists pattern. split; [|assumption].
    now apply list_elem_of_In.
Qed.

End GlobsFacts.

(** * Writing where the directory is *)

Section StoreMore5.

Context `{NetlocCheck}.

Lemma mkdirs_existing fs0 cur comps P :
  Fs.walk fs0 cur comps = Return P -> fs0 !! P = Some Fs.Dir ->
  Fs.mkdirs fs0 cur comps = (Return P, fs0).
Proof.
  revert cur; induction comps as [|c rest IH]; intros cur; simpl.
  - now intros [= ->].
  - destruct (fs0 !! cur) as [[|]|] eqn:E; try discriminate.
    intros W D.
    assert (is_Some (fs0 !! Fs.step cur c)) as [x Ex].
    { destruct rest as [|c' rest]; simpl in W.
      - injection W as <-. eauto.
      - destruct (fs0 !! Fs.step cur c) as [[|]|]; try discriminate; eauto. }
    rewrite Ex. now apply IH.
Qed.

Lemma makedirs_existing fs0 cwd0 pathname P :
  Fs.resolve fs0 cwd0 pathname = Return P -> fs0 !! P = Some Fs.Dir ->
  Fs.makedirs fs0 cwd0 pathname = (Return tt, fs0).
Proof.
  unfold Fs.resolve, Fs.makedirs. destruct (pathname =? "")%string; [discriminate|].
  intros W D. now rewrite (mkdirs_existing _ _ _ _ W D), D.
Qed.

(** X16. A [write] where the directory of the prefix is already there (as
    after an earlier write under the prefix) returns, unless a directory
    stands at the pathname of the new object; it makes no directory, and
    the tree changes at one pathname only, that of the new object, which
    holds the payload. *)
Theorem write_into_existing data prefix w root P :
  DataStoreIO.get_filepath (datastore_url (opts w)) = Return root ->
  Fs.resolve (fs w) (cwd w)
    (root +:+ "/" +:+ default_if_null prefix (datastore_relative_path_prefix (opts w)))
  = Return P ->
  fs w !! P = Some Fs.Dir ->
  fs w !! (P ++ [UUID.hex (upcoming_uuid w)])%list <> Some Fs.Dir ->
  DataStoreIO.write data prefix w
  = (Return (DataStoreIO.mk
               (object_url
                  (default_if_null prefix (datastore_relative_path_prefix (opts w)))
                  (UUID.hex (upcoming_uuid w)))),
     mkWorld (<[ (P ++ [UUID.hex (upcoming_uuid w)])%list := Fs.File data ]> (fs w))
             (cwd w) (opts w) (uuid_seq w) (S (uuid_calls w))).
Proof.
  intros R RP D N.
  rewrite write_eq, get_next_pathname_url_eq. cbv zeta. rewrite R.
  rewrite (makedirs_existing _ _ _ _ RP D).
  cbn [fs cwd]. unfold Fs.write_file, object_pathname, os_sep.
  rewrite (resolve_child _ _ _ _ (join_nonempty _ _) (hex_simple_name _)).
  rewrite RP, D.
  destruct (fs w !! (P ++ [UUID.hex (upcoming_uuid w)])%list) as [[|]|];
    [reflexivity | now destruct N | reflexivity].
Qed.

End StoreMore5.

(** * The further properties on the concrete setting *)

Lemma dir_chain_root fs0 : fs0 !! [] = Some Fs.Dir -> Fs.dir_chain fs0 [].
Proof. intros D q Pq. now apply prefix_nil_inv in Pq as ->. Qed.

(** X9 on the scenario: a mapping, here the empty one, stored and loaded. *)
Lemma to_url_from_url_witness :
  @DataStore.from_url python_netloc demo_codec ("file:///runs/" +:+ demo_token)
    (snd (@DataStore.to_url python_netloc demo_codec (DataStore.mk []) demo_world))
  = (Return (DataStore.mk []),
     snd (@DataStore.to_url python_netloc demo_codec (DataStore.mk []) demo_world)).
Proof.
  apply (@to_url_from_url python_netloc demo_codec (DataStore.mk []) demo_world).
  - run.
  - intros data [= <-]. reflexivity.
  - run_fst.
Defined.


(** X3 on the scenario: the store whose root is an [http] URL. *)
Lemma unresolved_root_witness :
  (forall data prefix,
      @DataStoreIO.write python_netloc data prefix demo_world_http
      = (Raise (InvalidInput "Unsupported URL scheme: http"), demo_world_http))
  /\ (forall p,
        @DataStoreIO.delete python_netloc p demo_world_http
        = (Raise (InvalidInput "Unsupported URL scheme: http"), demo_world_http))
  /\ (forall h,
        @DataStoreIO.read python_netloc h demo_world_http
        = (Raise (InvalidInput "Unsupported URL scheme: http"), demo_world_http)).
Proof.
  apply (@unresolved_root python_netloc demo_world_http). run.
Defined.


(** X6 on the scenario: the object under ["runs"], and [delete("")]. *)
Lemma delete_empty_prefix_witness :
  exists w',
    @DataStoreIO.delete python_netloc "" demo_world2 = (Return tt, w')
    /\ @DataStoreIO.read python_netloc demo_handle w'
       = (Raise (OSError FileNotFoundError), w').
Proof.
  apply (@delete_empty_prefix python_netloc "tmp/store" demo_world2 "runs"
           demo_token demo_handle demo_payload).
  - run.
  - run.
  - run.
  - apply get_pathname_from_url_fst. run.
  - apply read_fst. run.
Defined.

(** X12 on the scenario: [chdir()] called in [/tmp], its step run from the root directory. *)
Lemma chdir_remembers_witness :
  snd (@Chdir.chdir unit None demo_world_in_tmp) = demo_world_in_tmp
  /\ forall (run : unit) w2,
       Fs.dir_chain (fs w2) (cwd demo_world_in_tmp) ->
       Chdir.step_chdir run (Some "/tmp") w2
       = (Return tt, with_cwd w2 (cwd demo_world_in_tmp)).
Proof.
  apply (@chdir_remembers unit None demo_world_in_tmp
           (fun run => Chdir.step_chdir run (Some "/tmp"))).
  - now left.
  - repeat constructor.
  - run_fst.
Defined.

(** X13 on the scenario: reading the file [f] from inside [tmp/store], and back. *)
Lemma chdir_ctx_restores_witness :
  @FsUtils.chdir_ctx demo_joblib _ "tmp/store" (fun _ => open_rb_read "f")
    demo_world_file
  = (of_outcome (Return demo_payload),
     with_cwd
       (snd ((os_chdir "tmp/store" ;;; @shutdown_reusable_executor demo_joblib ;;;
              open_rb_read "f") demo_world_file))
       (cwd demo_world_file)).
Proof.
  apply (@chdir_ctx_restores demo_joblib _ "tmp/store" (fun _ => open_rb_read "f")
           demo_world_file).
  - constructor.
  - apply dir_chain_root. run.
  - run_fst.
  - apply dir_chain_root. run.
Defined.

Lemma demo_tmp_fresh k :
  ["tmp"; "tmpdir0"] `prefix_of` k -> fs demo_world_file !! k = None.
Proof.
  intros Pk. unfold demo_world_file. cbn [fs].
  rewrite !lookup_insert_ne; [apply lookup_empty | ..];
    intros <-; revert Pk; apply (proj1 (bool_decide_eq_false _)); run.
Qed.

Lemma open_wb_write_new w name p data :
  Fs.resolve (fs w) (cwd w) name = Return p -> fs w !! p = None ->
  open_wb_write name data w = (Return tt, with_fs w (<[p := Fs.File data]> (fs w))).
Proof.
  intros R L. unfold open_wb_write, Fs.write_file. now rewrite R, L.
Qed.

(** X14 on the scenario: a body that writes a file into the temporary directory. *)
Lemma tmpdir_ctx_leaves_no_trace_witness :
  exists w3,
    @FsUtils.tmpdir_ctx demo_tempfile _ (fun _ => open_wb_write "scratch" demo_payload)
      demo_world_file
    = (of_outcome (Return tt), w3)
    /\ fs w3 = fs demo_world_file /\ cwd w3 = cwd demo_world_file
    /\ opts w3 = opts demo_world_file
    /\ uuid_seq w3 = uuid_seq demo_world_file
    /\ uuid_calls w3 = uuid_calls demo_world_file.
Proof.
  pose (w1 := with_fs demo_world_file
                (<[ ["tmp"; "tmpdir0"] := Fs.Dir ]> (fs demo_world_file))).
  pose (w2 := with_fs (with_cwd w1 ["tmp"; "tmpdir0"])
                (<[ ["tmp"; "tmpdir0"; "scratch"] := Fs.File demo_payload ]> (fs w1))).
  apply (@tmpdir_ctx_leaves_no_trace demo_tempfile _
           (fun _ => open_wb_write "scratch" demo_payload)
           demo_world_file "/tmp/tmpdir0" w1 ["tmp"; "tmpdir0"] (Return tt) w2).
  - constructor.
  - apply dir_chain_root. run.
  - reflexivity.
  - apply demo_tmp_fresh.
  - reflexivity.
  - reflexivity.
  - run.
  - apply (open_wb_write_new (with_cwd w1 ["tmp"; "tmpdir0"]) "scratch"
             ["tmp"; "tmpdir0"; "scratch"]); run.
  - intros k Pk. apply lookup_insert_ne. intros <-. apply Pk. now exists ["scratch"].
  - run.
  - run.
Defined.

(** X15 on the scenario: the one file of [tmp/store] is [f], a character of the text. *)
Lemma globs_single_characters_witness :
  demo_world_file = demo_world_file
  /\ Fs.isdir (fs demo_world_file) (cwd demo_world_file) "tmp/store" = true
  /\ String.length "f" = 1
  /\ Fs.isfile (fs demo_world_file) (cwd demo_world_file) ("tmp/store" +:+ "/" +:+ "f")
     = true
  /\ forall pattern, pattern ∈ @nil string -> @fnmatch demo_fnmatch "f" pattern = false.
Proof.
  apply (@globs_single_characters demo_pathlib demo_fnmatch "tmp/store"
           (inl "**/*") None demo_world_file {[ "f" ]} demo_world_file "f").
  - apply (f_equal (fun m => (Return m, demo_world_file))). run.
  - now apply elem_of_singleton.
Defined.

(** X16 on the scenario: the second write under ["runs"]. *)
Lemma write_into_existing_witness :
  @DataStoreIO.write python_netloc demo_payload None demo_world1
  = (Return (DataStoreIO.mk
               (object_url
                  (default_if_null None (datastore_relative_path_prefix (opts demo_world1)))
                  (UUID.hex (upcoming_uuid demo_world1)))),
     mkWorld (<[ (["tmp"; "store"; "runs"] ++ [UUID.hex (upcoming_uuid demo_world1)])%list
                 := Fs.File demo_payload ]> (fs demo_world1))
             (cwd demo_world1) (opts demo_world1) (uuid_seq demo_world1)
             (S (uuid_calls demo_world1))).
Proof.
  apply (@write_into_existing python_netloc demo_payload None demo_world1 "tmp/store"
           ["tmp"; "store"; "runs"]).
  - run.
  - run.
  - run.
  - vm_compute. discriminate.
Defined.
